(** * Recording a pipeline from MLMD metadata

    A shallow embedding of
    [tfx/experimental/pipeline_testing/pipeline_recorder_utils.py]
    ([get_paths], [get_execution_dict], [get_latest_executions],
    [record_pipeline]) together with the parts of its environment the
    functions talk to: the ML-Metadata store, [os.path.join], Python's
    [max], and the three filesystem calls of the copy loop. *)

From stdpp Require Import gmap strings sorting pretty.
From Stdlib Require Import ZArith Ascii.

Local Open Scope Z_scope.

(** ** Exceptions and results

    The only exceptions the module raises itself, or provokes in the
    interpreter, are [ValueError] and [FileNotFoundError]; both carry
    their message. An exception of any other class, which only a
    library call can raise, is kept with the name of its class. *)

Inductive exn : Type :=
  | ValueError (msg : string)
  | FileNotFoundError (msg : string)
  | OtherError (class_name msg : string).

Inductive result (A : Type) : Type :=
  | Ok (a : A)
  | Raise (e : exn).

Arguments Ok {A} a.
Arguments Raise {A} e.

Definition bind {A B : Type} (r : result A) (k : A → result B) : result B :=
  match r with
  | Ok a => k a
  | Raise e => Raise e
  end.

Notation "x ←ᵣ r ; k" := (bind r (λ x, k))
  (at level 20, r at level 100, k at level 200, right associativity,
   format "x  ←ᵣ  r ;  '/' k").

Definition is_ValueError {A : Type} (r : result A) : Prop :=
  ∃ msg, r = Raise (ValueError msg).

(** ** The ML-Metadata data model ([metadata_store_pb2]) *)

(** A protobuf [Value] is a oneof; reading [.string_value] of a value that
    holds something else, or nothing, gives the empty string. The payload
    of a double is kept as its bit pattern. *)
Inductive Value : Type :=
  | NoValue
  | IntValue (int_value : Z)
  | DoubleValue (double_bits : Z)
  | StringValue (string_value : string).

Definition string_value (v : Value) : string :=
  match v with
  | StringValue s => s
  | _ => ""
  end.

(** [m[key]] on a protobuf map of messages: the default message when the
    key is absent. *)
Definition getitem (m : gmap string Value) (key : string) : Value :=
  default NoValue (m !! key).

Inductive EventType : Type :=
  | UNKNOWN
  | DECLARED_OUTPUT
  | DECLARED_INPUT
  | INPUT
  | OUTPUT
  | INTERNAL_INPUT
  | INTERNAL_OUTPUT.

#[global] Instance EventType_eq_dec : EqDecision EventType.
Proof. solve_decision. Defined.

Module Artifact.
Record t : Type := Build {
  id : Z;
  type_id : Z;
  uri : string;
  properties : gmap string Value;
  custom_properties : gmap string Value
}.
End Artifact.

Module Execution.
Record t : Type := Build {
  id : Z;
  type_id : Z;
  properties : gmap string Value;
  custom_properties : gmap string Value
}.
End Execution.

Module Event.
Record t : Type := Build {
  artifact_id : Z;
  execution_id : Z;
  type : EventType
}.
End Event.

Module ContextType.
Record t : Type := Build {
  id : Z;
  name : string
}.
End ContextType.

Module Context.
Record t : Type := Build {
  id : Z;
  type_id : Z;
  name : string;
  properties : gmap string Value;
  last_update_time_since_epoch : Z
}.
End Context.

Module Association.
Record t : Type := Build {
  execution_id : Z;
  context_id : Z
}.
End Association.

(** ** The metadata store

    The store is an external service; it is modelled by its tables and by
    the five read queries the recorder issues, each answering in table
    order (for [get_artifacts_by_id], in the order of the requested ids,
    unknown ids being skipped). The order of an answer depends on the
    version of the store; no statement below but the closed examples
    depends on it, and those use ascending ids, on which the orders
    agree. *)

Module Store.
Record t : Type := Build {
  artifacts : list Artifact.t;
  executions : list Execution.t;
  events : list Event.t;
  context_types : list ContextType.t;
  contexts : list Context.t;
  associations : list Association.t
}.

Definition get_executions (st : t) : list Execution.t :=
  executions st.

Definition get_events_by_execution_ids (st : t) (execution_ids : list Z)
  : list Event.t :=
  filter (λ ev, Event.execution_id ev ∈ execution_ids) (events st).

Definition find_artifact (st : t) (artifact_id : Z) : option Artifact.t :=
  List.find (λ a, bool_decide (Artifact.id a = artifact_id)) (artifacts st).

Definition get_artifacts_by_id (st : t) (artifact_ids : list Z)
  : list Artifact.t :=
  omap (find_artifact st) artifact_ids.

Definition get_contexts_by_type (st : t) (type_name : string)
  : list Context.t :=
  match List.find (λ ty, bool_decide (ContextType.name ty = type_name))
                  (context_types st) with
  | None => []
  | Some ty =>
      filter (λ c, Context.type_id c = ContextType.id ty) (contexts st)
  end.

Definition get_executions_by_context (st : t) (context_id : Z)
  : list Execution.t :=
  let execution_ids :=
    Association.execution_id <$>
      filter (λ a, Association.context_id a = context_id) (associations st) in
  filter (λ e, Execution.id e ∈ execution_ids) (executions st).

(** The store's referential integrity: an event is only ever recorded
    for an artifact that exists. *)
Definition events_reference_artifacts (st : t) : Prop :=
  Forall (λ ev, is_Some (find_artifact st (Event.artifact_id ev))) (events st).

#[global] Instance events_reference_artifacts_dec st :
  Decision (events_reference_artifacts st).
Proof. unfold events_reference_artifacts. apply _. Defined.
End Store.

(** ** [os.path.join] (posixpath) *)

Module PosixPath.
Definition sep : string := "/".

Definition startswith_sep (s : string) : bool :=
  match s with
  | String c _ => bool_decide (c = "/"%char)
  | EmptyString => false
  end.

Fixpoint endswith_sep (s : string) : bool :=
  match s with
  | EmptyString => false
  | String c EmptyString => bool_decide (c = "/"%char)
  | String _ s' => endswith_sep s'
  end.

(** One turn of the loop [for b in p] of [posixpath.join]. *)
Definition join_step (path b : string) : string :=
  if startswith_sep b then b
  else if bool_decide (path = "") || endswith_sep path then path +:+ b
  else path +:+ sep +:+ b.

Definition join (a : string) (p : list string) : string :=
  foldl join_step a p.
End PosixPath.

(** ** Python built-ins *)

(** [max(l, key=key)]: the first item whose key is largest; the empty
    sequence raises [ValueError]. *)
Definition max_step {A : Type} (key : A → Z) (best y : A) : A :=
  if key best <? key y then y else best.

Definition py_max {A : Type} (key : A → Z) (l : list A) : result A :=
  match l with
  | [] => Raise (ValueError "max() arg is an empty sequence")
  | x :: xs => Ok (foldl (max_step key) x xs)
  end.

(** [list({... for x in xs})]: the distinct items, in the iteration order
    of the set, which Python fixes from the insertion sequence but does
    not otherwise specify. *)
Class PySetOrder : Type := {
  set_to_list : list Z → list Z;
  set_to_list_NoDup : ∀ xs, NoDup (set_to_list xs);
  set_to_list_elem_of : ∀ xs x, x ∈ set_to_list xs ↔ x ∈ xs
}.

(** ** The filesystem

    The copy loop touches the filesystem through three calls only:
    [tf.io.gfile.exists], [os.makedirs(_, exist_ok=True)] and
    [io_utils.copy_dir]. They are kept abstract: any state type with
    these three operations is a filesystem. Every call that changes the
    state is also recorded, in order, in the run's list of calls. Here
    the calls return; [Raising.FileSystem] below has them raise. *)

Class FileSystem : Type := {
  fs_state : Type;
  gfile_exists : fs_state → string → bool;
  os_makedirs : fs_state → string → fs_state;
  copy_dir : fs_state → string → string → fs_state
}.

Inductive FsCall : Type :=
  | Makedirs (path : string)
  | CopyDir (src dst : string).

#[global] Instance FsCall_eq_dec : EqDecision FsCall.
Proof. solve_decision. Defined.

(** What a run leaves behind: how it ended, the filesystem, and the calls
    it made. *)
Record Run {file_system : FileSystem} : Type := MkRun {
  outcome : result unit;
  files : fs_state;
  calls : list FsCall
}.

Arguments MkRun {file_system} outcome files calls.

(** The two connection configs [record_pipeline] can build. *)
Inductive ConnectionConfig : Type :=
  | MetadataStoreClientConfig (host : string) (port : Z)
  | sqlite_metadata_connection_config (metadata_db_uri : string).

(** ** The recorder *)

Section Recorder.
Context {set_order : PySetOrder} {file_system : FileSystem}.

(** [metadata._CONTEXT_TYPE_PIPELINE_RUN], a constant of
    [tfx.orchestration.metadata]. *)
Variable CONTEXT_TYPE_PIPELINE_RUN : string.

(** [metadata.Metadata(metadata_config)]: the store a config connects
    to. *)
Variable Metadata : ConnectionConfig → Store.t.

(** The pair [get_paths] yields for one artifact (the loop body). *)
Definition path_pair (output_dir : string) (artifact : Artifact.t)
  : string * string :=
  let src_uri := Artifact.uri artifact in
  let component_id :=
    string_value
      (getitem (Artifact.custom_properties artifact) "producer_component") in
  let name :=
    string_value (getitem (Artifact.custom_properties artifact) "name") in
  let dest_uri := PosixPath.join output_dir [component_id; name] in
  (src_uri, dest_uri).

Definition get_paths (metadata_connection : Store.t)
    (executions : list Execution.t) (output_dir : string)
  : list (string * string) :=
  let events :=
    filter (λ x, Event.type x = OUTPUT)
      (Store.get_events_by_execution_ids metadata_connection
         (Execution.id <$> executions)) in
  let unique_artifact_ids := set_to_list (Event.artifact_id <$> events) in
  path_pair output_dir <$>
    Store.get_artifacts_by_id metadata_connection unique_artifact_ids.

(** [execution.properties['run_id'].string_value]. *)
Definition execution_run_id (execution : Execution.t) : string :=
  string_value (getitem (Execution.properties execution) "run_id").

(** [execution_dict[execution_run_id].append(execution)] on a
    [defaultdict(list)]. *)
Definition dict_append (execution_dict : gmap string (list Execution.t))
    (execution : Execution.t) : gmap string (list Execution.t) :=
  let execution_run_id := execution_run_id execution in
  <[execution_run_id :=
      default [] (execution_dict !! execution_run_id) ++ [execution]]>
    execution_dict.

Definition get_execution_dict (metadata_connection : Store.t)
  : gmap string (list Execution.t) :=
  foldl dict_append ∅ (Store.get_executions metadata_connection).

Definition get_latest_executions (metadata_connection : Store.t)
    (pipeline_name : string) : result (list Execution.t) :=
  let pipeline_run_contexts :=
    filter
      (λ c, string_value (getitem (Context.properties c) "pipeline_name")
            = pipeline_name)
      (Store.get_contexts_by_type metadata_connection
         CONTEXT_TYPE_PIPELINE_RUN) in
  latest_context ←ᵣ
    py_max Context.last_update_time_since_epoch pipeline_run_contexts;
  Ok (Store.get_executions_by_context metadata_connection
        (Context.id latest_context)).

(** [record_pipeline], lines 118-127: the connection config, the setter
    of line 121 accepting the port ([Raising.metadata_config_of] has it
    reject one). *)
Definition metadata_config_of (metadata_db_uri host : option string)
    (port : option Z) : result ConnectionConfig :=
  match host, port with
  | Some host, Some port => Ok (MetadataStoreClientConfig host port)
  | _, _ =>
      match metadata_db_uri with
      | Some metadata_db_uri =>
          Ok (sqlite_metadata_connection_config metadata_db_uri)
      | None =>
          Raise (ValueError
            ("For KFP, host and port are required. " +:+
             "For beam pipeline, metadata_db_uri is required."))
      end
  end.

(** [record_pipeline], lines 130-143: the executions to record. *)
Definition select_executions (metadata_connection : Store.t)
    (pipeline_name run_id : option string) : result (list Execution.t) :=
  match run_id with
  | None =>
      match pipeline_name with
      | None =>
          Raise (ValueError
            ("If the run_id is not specified," +:+
             " pipeline_name should be specified"))
      | Some pipeline_name =>
          get_latest_executions metadata_connection pipeline_name
      end
  | Some run_id =>
      let execution_dict := get_execution_dict metadata_connection in
      match execution_dict !! run_id with
      | Some executions => Ok executions
      | None =>
          Raise (ValueError
            ("run_id " +:+ run_id +:+
             " is not recorded in the MLMD metadata"))
      end
  end.

(** [record_pipeline], lines 144-149: the copy loop. The closing
    [absl.logging.info] line writes to the log only and is left out. *)
Fixpoint copy_paths (paths : list (string * string)) (fs : fs_state) : Run :=
  match paths with
  | [] => MkRun (Ok ()) fs []
  | (src_uri, dest_uri) :: rest =>
      if gfile_exists fs src_uri then
        let fs1 := os_makedirs fs dest_uri in
        let fs2 := copy_dir fs1 src_uri dest_uri in
        let r := copy_paths rest fs2 in
        MkRun (outcome r) (files r)
              (Makedirs dest_uri :: CopyDir src_uri dest_uri :: calls r)
      else
        MkRun (Raise (FileNotFoundError (src_uri +:+ " does not exist")))
              fs []
  end.

Definition record_pipeline (output_dir : string)
    (metadata_db_uri host : option string) (port : option Z)
    (pipeline_name run_id : option string) (fs : fs_state) : Run :=
  match metadata_config_of metadata_db_uri host port with
  | Raise e => MkRun (Raise e) fs []
  | Ok metadata_config =>
      let metadata_connection := Metadata metadata_config in
      match select_executions metadata_connection pipeline_name run_id with
      | Raise e => MkRun (Raise e) fs []
      | Ok executions =>
          copy_paths (get_paths metadata_connection executions output_dir) fs
      end
  end.

End Recorder.

(** ** Vocabulary for the statements *)

Section Vocabulary.
Context {file_system : FileSystem}.

(** The calls one turn of the copy loop makes for a pair, and what they
    do to the filesystem. *)
Definition copy_calls (path : string * string) : list FsCall :=
  [Makedirs path.2; CopyDir path.1 path.2].

Definition copy_one (fs : fs_state) (path : string * string) : fs_state :=
  copy_dir (os_makedirs fs path.2) path.1 path.2.

(** Every source of [paths] exists at the moment the loop tests it,
    that is, after the pairs before it have been copied. *)
Fixpoint sources_exist (paths : list (string * string)) (fs : fs_state)
  : bool :=
  match paths with
  | [] => true
  | path :: rest =>
      gfile_exists fs path.1 && sources_exist rest (copy_one fs path)
  end.

(** The argument cases in which [record_pipeline] raises [ValueError]. *)
Definition no_connection_config (metadata_db_uri host : option string)
    (port : option Z) : Prop :=
  ¬ (host ≠ None ∧ port ≠ None) ∧ metadata_db_uri = None.

Definition nothing_to_look_up (pipeline_name run_id : option string) : Prop :=
  run_id = None ∧ pipeline_name = None.

Definition run_id_not_recorded (st : Store.t) (run_id : option string)
  : Prop :=
  ∃ r, run_id = Some r
       ∧ ∀ e, e ∈ Store.get_executions st → execution_run_id e ≠ r.

Definition pipeline_not_recorded (CONTEXT_TYPE_PIPELINE_RUN : string)
    (st : Store.t) (pipeline_name run_id : option string) : Prop :=
  run_id = None
  ∧ ∃ p, pipeline_name = Some p
         ∧ ∀ c, c ∈ Store.get_contexts_by_type st
                      CONTEXT_TYPE_PIPELINE_RUN →
                string_value (getitem (Context.properties c) "pipeline_name")
                ≠ p.
End Vocabulary.


(** ** The recorder when library calls raise

    [record_pipeline] above takes the calls into its libraries to
    return. Two kinds of them raise on inputs the recorder can pass: the
    setter of the config's [port] field, for a port outside the range of
    the field, and [os.makedirs] and [io_utils.copy_dir], for what the
    filesystem does not allow. The module below is [record_pipeline]
    with these endings; the selection of the executions and [get_paths]
    are the ones above. The calls to the metadata store and
    [tf.io.gfile.exists] are still taken to return. *)

Module Raising.

(** The [port] field of [MetadataStoreClientConfig], declared in
    [metadata_store.proto]: the values its setter accepts, and the
    message of the [ValueError] it raises for any other. *)
Class PortField : Type := {
  port_in_range : Z → bool;
  port_out_of_range : Z → string
}.

(** A filesystem whose [os.makedirs] and [copy_dir] may raise; each
    returns how it ended and the state it left. *)
Class FileSystem : Type := {
  fs_state : Type;
  gfile_exists : fs_state → string → bool;
  os_makedirs : fs_state → string → result unit * fs_state;
  copy_dir : fs_state → string → string → result unit * fs_state
}.

(** The calls of a run are those it made, the one that raised
    included. *)
Record Run {file_system : FileSystem} : Type := MkRun {
  outcome : result unit;
  files : fs_state;
  calls : list FsCall
}.

Arguments MkRun {file_system} outcome files calls.

Section Recorder.
Context {set_order : PySetOrder} {port_field : PortField}
        {file_system : FileSystem}.
Variable CONTEXT_TYPE_PIPELINE_RUN : string.
Variable Metadata : ConnectionConfig → Store.t.

(** [record_pipeline], lines 118-127; line 121 is the setter. *)
Definition metadata_config_of (metadata_db_uri host : option string)
    (port : option Z) : result ConnectionConfig :=
  match host, port with
  | Some host, Some port =>
      if port_in_range port then Ok (MetadataStoreClientConfig host port)
      else Raise (ValueError (port_out_of_range port))
  | _, _ =>
      match metadata_db_uri with
      | Some metadata_db_uri =>
          Ok (sqlite_metadata_connection_config metadata_db_uri)
      | None =>
          Raise (ValueError
            ("For KFP, host and port are required. " +:+
             "For beam pipeline, metadata_db_uri is required."))
      end
  end.

(** [record_pipeline], lines 144-149. *)
Fixpoint copy_paths (paths : list (string * string)) (fs : fs_state) : Run :=
  match paths with
  | [] => MkRun (Ok ()) fs []
  | (src_uri, dest_uri) :: rest =>
      if gfile_exists fs src_uri then
        match os_makedirs fs dest_uri with
        | (Raise e, fs1) => MkRun (Raise e) fs1 [Makedirs dest_uri]
        | (Ok _, fs1) =>
            match copy_dir fs1 src_uri dest_uri with
            | (Raise e, fs2) =>
                MkRun (Raise e) fs2
                      [Makedirs dest_uri; CopyDir src_uri dest_uri]
            | (Ok _, fs2) =>
                let r := copy_paths rest fs2 in
                MkRun (outcome r) (files r)
                      (Makedirs dest_uri :: CopyDir src_uri dest_uri
                       :: calls r)
            end
        end
      else
        MkRun (Raise (FileNotFoundError (src_uri +:+ " does not exist")))
              fs []
  end.

Definition record_pipeline (output_dir : string)
    (metadata_db_uri host : option string) (port : option Z)
    (pipeline_name run_id : option string) (fs : fs_state) : Run :=
  match metadata_config_of metadata_db_uri host port with
  | Raise e => MkRun (Raise e) fs []
  | Ok metadata_config =>
      let metadata_connection := Metadata metadata_config in
      match select_executions CONTEXT_TYPE_PIPELINE_RUN metadata_connection
              pipeline_name run_id with
      | Raise e => MkRun (Raise e) fs []
      | Ok executions =>
          copy_paths (get_paths metadata_connection executions output_dir) fs
      end
  end.

(** The loop gets through [paths]: every source exists when tested and
    neither call raises for any pair; [copied] is the filesystem this
    leaves. *)
Fixpoint copied (paths : list (string * string)) (fs : fs_state)
  : option fs_state :=
  match paths with
  | [] => Some fs
  | (src_uri, dest_uri) :: rest =>
      if gfile_exists fs src_uri then
        match os_makedirs fs dest_uri with
        | (Ok _, fs1) =>
            match copy_dir fs1 src_uri dest_uri with
            | (Ok _, fs2) => copied rest fs2
            | (Raise _, _) => None
            end
        | (Raise _, _) => None
        end
      else None
  end.

(** Host and port are both given and the setter rejects the port. *)
Definition port_rejected (host : option string) (port : option Z) : Prop :=
  ∃ h p, host = Some h ∧ port = Some p ∧ port_in_range p = false.

(** Inside the loop over [paths], [os.makedirs] or [copy_dir] raises
    [ValueError]. *)
Definition library_ValueError (paths : list (string * string))
    (fs : fs_state) : Prop :=
  ∃ pre src_uri dest_uri post fs1,
    paths = pre ++ (src_uri, dest_uri) :: post
    ∧ copied pre fs = Some fs1
    ∧ gfile_exists fs1 src_uri = true
    ∧ (is_ValueError (os_makedirs fs1 dest_uri).1
       ∨ (os_makedirs fs1 dest_uri).1 = Ok ()
         ∧ is_ValueError
             (copy_dir (os_makedirs fs1 dest_uri).2 src_uri dest_uri).1).
End Recorder.
End Raising.

(** A filesystem whose calls return is one whose calls never raise, and
    a port field may accept every port. *)
Definition never_raising (F : FileSystem) : Raising.FileSystem := {|
  Raising.fs_state := fs_state;
  Raising.gfile_exists := gfile_exists;
  Raising.os_makedirs := λ fs path, (Ok (), os_makedirs fs path);
  Raising.copy_dir := λ fs src dst, (Ok (), copy_dir fs src dst)
|}.

Definition any_port : Raising.PortField := {|
  Raising.port_in_range := λ _, true;
  Raising.port_out_of_range := λ _, ""
|}.

(** ** A small world to run the recorder in

    A set order (ascending ids: what CPython's set gives for the small
    ids of this world, and the order in which the store answers), an
    in-memory filesystem (the paths that exist, each with a note of
    where it came from) and a store with three executions in two runs. *)

Module Example.
Definition ascending_order : PySetOrder.
Proof.
  refine {| set_to_list := λ xs, merge_sort Z.le (remove_dups xs) |}.
  - intros xs. rewrite merge_sort_Permutation. apply NoDup_remove_dups.
  - intros xs x. rewrite merge_sort_Permutation. apply elem_of_remove_dups.
Defined.

Definition path_list_fs : FileSystem := {|
  fs_state := list (string * string);
  gfile_exists := λ fs path, bool_decide (path ∈ fst <$> fs);
  os_makedirs := λ fs path, (path, "directory") :: fs;
  copy_dir := λ fs src dst, (dst, "copy of " +:+ src) :: fs
|}.

Definition run_prop (run_id : string) : gmap string Value :=
  {[ "run_id" := StringValue run_id ]}.

Definition e1 := Execution.Build 1 7 (run_prop "run1") ∅.
Definition e2 := Execution.Build 2 7 (run_prop "run2") ∅.
Definition e3 := Execution.Build 3 8 (run_prop "run1") ∅.

Definition produced (component name : string) : gmap string Value :=
  {[ "producer_component" := StringValue component;
     "name" := StringValue name ]}.

Definition model := Artifact.Build 10 1 "/mlmd/Trainer/model/1" ∅
                      (produced "Trainer" "model").
Definition examples := Artifact.Build 11 2 "/mlmd/Gen/examples/1" ∅
                         (produced "Gen" "examples").
Definition schema := Artifact.Build 12 3 "/mlmd/Schema/schema/1" ∅
                       (produced "SchemaGen" "schema").

Definition ctx (id : Z) (pipeline_name : string) (time : Z) : Context.t :=
  Context.Build id 1 (pipeline_name +:+ "." +:+ "run")
    {[ "pipeline_name" := StringValue pipeline_name ]} time.

Definition store : Store.t := {|
  Store.artifacts := [model; examples; schema];
  Store.executions := [e1; e2; e3];
  Store.events := [
    Event.Build 12 1 INPUT;
    Event.Build 10 1 OUTPUT;
    Event.Build 11 3 OUTPUT;
    Event.Build 10 3 OUTPUT;
    Event.Build 11 2 INPUT;
    Event.Build 12 2 DECLARED_OUTPUT
  ];
  Store.context_types := [ContextType.Build 1 "run"];
  Store.contexts := [ctx 100 "taxi" 5; ctx 101 "taxi" 9; ctx 102 "iris" 20;
                     ctx 103 "taxi" 9];
  Store.associations := [
    Association.Build 1 100;
    Association.Build 2 101;
    Association.Build 3 101
  ]
|}.

Definition connect (_ : ConnectionConfig) : Store.t := store.

Definition grpc : ConnectionConfig :=
  MetadataStoreClientConfig "localhost" 8080.

(** The recorder in this world, reaching the store over gRPC and writing
    below ["out"]. *)
Definition record (pipeline_name run_id : option string)
    (fs : list (string * string)) : Run (file_system := path_list_fs) :=
  record_pipeline (set_order := ascending_order) (file_system := path_list_fs)
    "run" connect "out" None (Some "localhost") (Some 8080)
    pipeline_name run_id fs.

Definition paths (executions : list Execution.t) : list (string * string) :=
  get_paths (set_order := ascending_order) store executions "out".

Definition ended (o : result unit) (fs : list (string * string))
    (cs : list FsCall) : Run (file_system := path_list_fs) :=
  MkRun (file_system := path_list_fs) o fs cs.

Definition disk_without_model : list (string * string) :=
  [("/mlmd/Gen/examples/1", "directory")].

Definition disk_without_examples : list (string * string) :=
  [("/mlmd/Trainer/model/1", "directory")].

Definition disk : list (string * string) :=
  [("/mlmd/Trainer/model/1", "directory");
   ("/mlmd/Gen/examples/1", "directory")].

(** More of the small world: a store stripped to its OUTPUT events, an
    artifact without custom properties, one whose name is an absolute
    path, and a store with an execution whose [run_id] is a number. *)
Definition store_outputs_only : Store.t := {|
  Store.artifacts := Store.artifacts store;
  Store.executions := Store.executions store;
  Store.events := [
    Event.Build 10 1 OUTPUT;
    Event.Build 11 3 OUTPUT;
    Event.Build 10 3 OUTPUT
  ];
  Store.context_types := [];
  Store.contexts := [];
  Store.associations := []
|}.

Definition bare := Artifact.Build 13 1 "/mlmd/bare/1" ∅ ∅.

Definition rooted := Artifact.Build 14 1 "/mlmd/Trainer/model/2" ∅
                       (produced "Trainer" "/srv/model").

Definition e4 := Execution.Build 4 7 {[ "run_id" := IntValue 7 ]} ∅.

Definition store_unlabelled : Store.t := {|
  Store.artifacts := [];
  Store.executions := [e1; e4];
  Store.events := [];
  Store.context_types := [];
  Store.contexts := [];
  Store.associations := []
|}.

(** The world with library calls that raise: a port field of signed 64
    bits, and a filesystem whose [os.makedirs] refuses the empty path
    and a path that is a regular file. *)
Definition int64_port : Raising.PortField := {|
  Raising.port_in_range := λ p, bool_decide (- 2 ^ 63 ≤ p < 2 ^ 63);
  Raising.port_out_of_range := λ p, "Value out of range: " +:+ pretty p
|}.

Definition refusing_fs : Raising.FileSystem := {|
  Raising.fs_state := list (string * string);
  Raising.gfile_exists := λ fs path, bool_decide (path ∈ fst <$> fs);
  Raising.os_makedirs := λ fs path,
    if bool_decide (path = "") then
      (Raise (FileNotFoundError "[Errno 2] No such file or directory: ''"),
       fs)
    else if bool_decide ((path, "file") ∈ fs) then
      (Raise (OtherError "FileExistsError"
                ("[Errno 17] File exists: '" +:+ path +:+ "'")), fs)
    else (Ok (), (path, "directory") :: fs);
  Raising.copy_dir := λ fs src dst, (Ok (), (dst, "copy of " +:+ src) :: fs)
|}.

Definition record_raising (pipeline_name run_id : option string)
    (fs : list (string * string))
  : Raising.Run (file_system := refusing_fs) :=
  Raising.record_pipeline
    (set_order := ascending_order) (port_field := int64_port)
    (file_system := refusing_fs)
    "run" connect "out" None (Some "localhost") (Some 8080)
    pipeline_name run_id fs.

Definition disk_with_file_at_model : list (string * string) :=
  [("/mlmd/Trainer/model/1", "directory");
   ("/mlmd/Gen/examples/1", "directory");
   ("out/Trainer/model", "file")].

(** The opposite set order, to compare runs under two orders. *)
Definition descending_order : PySetOrder.
Proof.
  refine {| set_to_list :=
              λ xs, reverse (merge_sort Z.le (remove_dups xs)) |}.
  - intros xs. rewrite reverse_Permutation, merge_sort_Permutation.
    apply NoDup_remove_dups.
  - intros xs x. rewrite elem_of_reverse, merge_sort_Permutation.
    apply elem_of_remove_dups.
Defined.
End Example.


(** * Properties *)

(** ** The execution dictionary *)

Section DictFacts.
Implicit Types (d : gmap string (list Execution.t)) (e : Execution.t).

Lemma dict_append_lookup d e k :
  dict_append d e !! k =
    if decide (execution_run_id e = k)
    then Some (default [] (d !! k) ++ [e])
    else d !! k.
Proof.
  unfold dict_append. case_decide as Hk.
  - subst k. by rewrite lookup_insert_eq.
  - by rewrite lookup_insert_ne.
Qed.

Lemma foldl_dict_append_lookup (l : list Execution.t) d k :
  foldl dict_append d l !! k =
    match d !! k, filter (λ e, execution_run_id e = k) l with
    | None, [] => None
    | o, new => Some (default [] o ++ new)
    end.
Proof.
  revert d. induction l as [|e l IH]; intros d; simpl.
  - destruct (d !! k); simpl; [by rewrite app_nil_r | done].
  - rewrite IH, dict_append_lookup, filter_cons.
    case_decide as Hk; simpl.
    + destruct (d !! k); simpl; by rewrite <- ?app_assoc.
    + done.
Qed.



(** The list stored under a key, as [run_id in execution_dict] and
    [execution_dict[run_id]] see it. *)
Lemma get_execution_dict_lookup (st : Store.t) (k : string) :
  get_execution_dict st !! k =
    match filter (λ e, execution_run_id e = k) (Store.get_executions st) with
    | [] => None
    | l => Some l
    end.
Proof.
  unfold get_execution_dict.
  rewrite foldl_dict_append_lookup, lookup_empty. simpl.
  by destruct (filter _ _).
Qed.


(** Hence a list of the dictionary holds only executions of its key,
    and holds them as a subsequence of what [get_executions] returned. *)
Lemma get_execution_dict_entry (st : Store.t) (k : string)
    (l : list Execution.t) :
  get_execution_dict st !! k = Some l →
  Forall (λ e, execution_run_id e = k) l
  ∧ l `sublist_of` Store.get_executions st.
Proof.
  rewrite get_execution_dict_lookup. intros Hl.
  destruct (filter _ _) as [|x xs] eqn:Hf; [done|].
  injection Hl as <-. rewrite <- Hf. split.
  - apply Forall_forall. intros e He.
    by apply list_elem_of_filter in He as [? _].
  - apply sublist_filter.
Qed.
End DictFacts.

(** ** [max] and the latest context *)

Section MaxFacts.
Context {A : Type} (key : A → Z).

(** The fold behind [max] stops on the first item of largest key. *)
Lemma foldl_max_first (xs : list A) (x : A) :
  ∃ pre post,
    x :: xs = pre ++ foldl (max_step key) x xs :: post
    ∧ Forall (λ y, key y < key (foldl (max_step key) x xs)) pre
    ∧ Forall (λ y, key y ≤ key (foldl (max_step key) x xs)) post.
Proof.
  induction xs as [|y xs IH] using rev_ind.
  - exists [], []. simpl. by repeat constructor.
  - destruct IH as (pre & post & Heq & Hpre & Hpost).
    rewrite foldl_app. cbn [foldl]. set (m := foldl (max_step key) x xs) in *.
    replace (max_step key m y) with (if key m <? key y then y else m)
      by reflexivity.
    destruct (Z.ltb_spec (key m) (key y)) as [Hlt|Hge].
    + exists (pre ++ m :: post), []. split; [|split].
      * by rewrite app_comm_cons, Heq.
      * apply Forall_app. split; [|constructor].
        -- eapply Forall_impl; [exact Hpre|]. simpl. lia.
        -- lia.
        -- eapply Forall_impl; [exact Hpost|]. simpl. lia.
      * constructor.
    + exists pre, (post ++ [y]). split; [|split].
      * rewrite app_comm_cons, Heq. by rewrite <- app_assoc.
      * done.
      * apply Forall_app. split; [done|]. by repeat constructor.
Qed.

Lemma py_max_first (l : list A) :
  l ≠ [] →
  ∃ m pre post,
    py_max key l = Ok m
    ∧ l = pre ++ m :: post
    ∧ Forall (λ y, key y < key m) pre
    ∧ Forall (λ y, key y ≤ key m) post.
Proof.
  destruct l as [|x xs]; [done|]. intros _.
  destruct (foldl_max_first xs x) as (pre & post & Heq & Hpre & Hpost).
  by exists (foldl (max_step key) x xs), pre, post.
Qed.

Lemma py_max_nil :
  py_max key [] = Raise (ValueError "max() arg is an empty sequence").
Proof. done. Qed.
End MaxFacts.

Section LatestFacts.
Variable CONTEXT_TYPE_PIPELINE_RUN : string.

(** The context [get_latest_executions] settles on splits the matching
    contexts in two: those before it were updated strictly earlier,
    those after it no later. Among contexts sharing the largest time it
    is therefore the first. *)
Lemma get_latest_executions_of_latest_context
    (st : Store.t) (pipeline_name : string) :
  (∃ c, c ∈ Store.get_contexts_by_type st CONTEXT_TYPE_PIPELINE_RUN
        ∧ string_value (getitem (Context.properties c) "pipeline_name")
          = pipeline_name) →
  ∃ latest earlier later,
    filter (λ c, string_value (getitem (Context.properties c) "pipeline_name")
                 = pipeline_name)
           (Store.get_contexts_by_type st CONTEXT_TYPE_PIPELINE_RUN)
      = earlier ++ latest :: later
    ∧ Forall (λ c, Context.last_update_time_since_epoch c
                   < Context.last_update_time_since_epoch latest) earlier
    ∧ Forall (λ c, Context.last_update_time_since_epoch c
                   ≤ Context.last_update_time_since_epoch latest) later
    ∧ get_latest_executions CONTEXT_TYPE_PIPELINE_RUN st pipeline_name
      = Ok (Store.get_executions_by_context st (Context.id latest)).
Proof.
  intros (c & Hc & Hname).
  unfold get_latest_executions.
  set (matching := filter _ _).
  assert (matching ≠ []) as Hne.
  { intros Hnil. assert (c ∈ matching) as Hin.
    { apply list_elem_of_filter. by split. }
    rewrite Hnil in Hin. by apply not_elem_of_nil in Hin. }
  destruct (py_max_first Context.last_update_time_since_epoch matching Hne)
    as (m & pre & post & Hmax & Heq & Hpre & Hpost).
  exists m, pre, post. rewrite Hmax. by simpl.
Qed.

(** C3. When some context of the pipeline-run type carries the given
    pipeline name, [get_latest_executions] returns exactly the
    executions that [get_executions_by_context] associates with a
    matching context whose [last_update_time_since_epoch] is largest
    among the matching contexts. *)
Theorem get_latest_executions_maximal (st : Store.t) (pipeline_name : string) :
  (∃ c, c ∈ Store.get_contexts_by_type st CONTEXT_TYPE_PIPELINE_RUN
        ∧ string_value (getitem (Context.properties c) "pipeline_name")
          = pipeline_name) →
  ∃ latest,
    latest ∈ Store.get_contexts_by_type st CONTEXT_TYPE_PIPELINE_RUN
    ∧ string_value (getitem (Context.properties latest) "pipeline_name")
      = pipeline_name
    ∧ (∀ c, c ∈ Store.get_contexts_by_type st
                  CONTEXT_TYPE_PIPELINE_RUN →
            string_value (getitem (Context.properties c) "pipeline_name")
            = pipeline_name →
            Context.last_update_time_since_epoch c
            ≤ Context.last_update_time_since_epoch latest)
    ∧ get_latest_executions CONTEXT_TYPE_PIPELINE_RUN st pipeline_name
      = Ok (Store.get_executions_by_context st (Context.id latest)).
Proof.
  intros Hex.
  destruct (get_latest_executions_of_latest_context st pipeline_name Hex)
    as (m & pre & post & Heq & Hpre & Hpost & Hres).
  assert (m ∈ filter (λ c, string_value
              (getitem (Context.properties c) "pipeline_name") = pipeline_name)
            (Store.get_contexts_by_type st CONTEXT_TYPE_PIPELINE_RUN)) as Hm.
  { rewrite Heq. apply elem_of_app. right. apply elem_of_cons. by left. }
  apply list_elem_of_filter in Hm as [Hmn Hmin].
  exists m. split; [done|]. split; [done|]. split; [|done].
  intros c Hc Hcn.
  assert (c ∈ pre ++ m :: post) as Hin.
  { rewrite <- Heq. apply list_elem_of_filter. by split. }
  rewrite Forall_forall in Hpre, Hpost.
  apply elem_of_app in Hin as [Hin|Hin].
  - specialize (Hpre _ Hin). simpl in Hpre. lia.
  - apply elem_of_cons in Hin as [->|Hin]; [lia|]. by apply Hpost.
Qed.
End LatestFacts.

(** ** The paths *)

Section StoreFacts.
Lemma find_artifact_Some (st : Store.t) (i : Z) (a : Artifact.t) :
  Store.find_artifact st i = Some a →
  a ∈ Store.artifacts st ∧ Artifact.id a = i.
Proof.
  unfold Store.find_artifact. intros Hf.
  apply find_some in Hf as [Hin Hid].
  split; [by apply list_elem_of_In|].
  by apply bool_decide_eq_true in Hid.
Qed.

Lemma omap_all_Some {A B : Type} (f : A → option B) (l : list A) :
  Forall (λ x, is_Some (f x)) l →
  Forall2 (λ x y, f x = Some y) l (omap f l).
Proof.
  induction 1 as [|x l [y Hy] _ IH]; simpl; [constructor|].
  rewrite Hy. by constructor.
Qed.

Lemma omap_elem_of_Some {A B : Type} (f : A → option B) (l : list A) (y : B) :
  y ∈ omap f l → ∃ x, x ∈ l ∧ f x = Some y.
Proof.
  intros Hy. apply list_elem_of_omap in Hy as (x & Hx & Hfx). eauto.
Qed.
End StoreFacts.

Section PathFacts.
Context {set_order : PySetOrder}.

(** The ids [get_paths] asks the store for are the artifact ids of the
    OUTPUT events of the given executions, each once. *)
Lemma output_artifact_id_iff (st : Store.t) (executions : list Execution.t)
    (i : Z) :
  i ∈ Event.artifact_id <$>
        filter (λ x, Event.type x = OUTPUT)
          (Store.get_events_by_execution_ids st (Execution.id <$> executions))
  ↔ ∃ ev e, ev ∈ Store.events st ∧ e ∈ executions
            ∧ Event.execution_id ev = Execution.id e
            ∧ Event.type ev = OUTPUT
            ∧ Event.artifact_id ev = i.
Proof.
  unfold Store.get_events_by_execution_ids.
  rewrite list_elem_of_fmap. split.
  - intros (ev & -> & Hev).
    apply list_elem_of_filter in Hev as [Hty Hev].
    apply list_elem_of_filter in Hev as [Hex Hev].
    apply list_elem_of_fmap in Hex as (e & He & Hin).
    by exists ev, e.
  - intros (ev & e & Hev & He & Hex & Hty & <-).
    exists ev. split; [done|].
    apply list_elem_of_filter. split; [done|].
    apply list_elem_of_filter. split; [|done].
    apply list_elem_of_fmap. by exists e.
Qed.

(** C1. In a store whose events reference existing artifacts,
    [get_paths] yields exactly one pair for each distinct artifact id
    that occurs in an OUTPUT event of the given executions: the pairs
    line up one to one with a duplicate-free list of precisely those
    ids. An artifact met only in events of another type (such as INPUT)
    is not in that list, and an artifact met in several OUTPUT events
    is in it once. *)
Theorem get_paths_one_pair_per_output_artifact
    (st : Store.t) (executions : list Execution.t) (output_dir : string) :
  Store.events_reference_artifacts st →
  ∃ ids : list Z,
    NoDup ids
    ∧ (∀ i, i ∈ ids ↔
            ∃ ev e, ev ∈ Store.events st ∧ e ∈ executions
                    ∧ Event.execution_id ev = Execution.id e
                    ∧ Event.type ev = OUTPUT
                    ∧ Event.artifact_id ev = i)
    ∧ Forall2
        (λ i pair, ∃ a, a ∈ Store.artifacts st ∧ Artifact.id a = i
                        ∧ pair = path_pair output_dir a)
        ids (get_paths st executions output_dir).
Proof.
  intros Hwf. unfold get_paths.
  set (evs := filter (λ x, Event.type x = OUTPUT) _).
  exists (set_to_list (Event.artifact_id <$> evs)).
  split; [apply set_to_list_NoDup|].
  split.
  { intros i. rewrite set_to_list_elem_of. apply output_artifact_id_iff. }
  unfold Store.get_artifacts_by_id.
  apply Forall2_fmap_r.
  eapply Forall2_impl.
  - apply omap_all_Some. apply Forall_forall. intros i Hi.
    apply set_to_list_elem_of, output_artifact_id_iff in Hi
      as (ev & e & Hev & _ & _ & _ & <-).
    unfold Store.events_reference_artifacts in Hwf.
    rewrite Forall_forall in Hwf. by apply Hwf.
  - intros i a Hf. simpl in Hf. exists a.
    apply find_artifact_Some in Hf as [Hin Hid]. done.
Qed.

(** Joining a component that does not start with the separator keeps
    what was joined so far and appends the component, after a separator
    unless the path is empty or already ends with one. *)
Lemma join_step_relative (path b : string) :
  PosixPath.startswith_sep b = false →
  ∃ s, (s = "" ∨ s = "/") ∧ PosixPath.join_step path b = path +:+ s +:+ b.
Proof.
  intros Hb. unfold PosixPath.join_step. rewrite Hb.
  destruct (bool_decide (path = "") || PosixPath.endswith_sep path).
  - exists "". split; [by left | done].
  - exists "/". split; [by right | done].
Qed.

(** C2. A pair yielded by [get_paths] comes from an artifact of the
    store that an OUTPUT event of the given executions refers to; it is
    the artifact's uri together with
    [os.path.join(output_dir, p, n)], where [p] and [n] are the string
    values of the custom properties 'producer_component' and 'name'.
    With [p] and [n] relative, that destination is [output_dir]
    followed by the component and then the name. *)
Theorem get_paths_pair_shape
    (st : Store.t) (executions : list Execution.t) (output_dir : string)
    (src_uri dest_uri : string) :
  (src_uri, dest_uri) ∈ get_paths st executions output_dir →
  ∃ artifact,
    artifact ∈ Store.artifacts st
    ∧ (∃ ev e, ev ∈ Store.events st ∧ e ∈ executions
               ∧ Event.execution_id ev = Execution.id e
               ∧ Event.type ev = OUTPUT
               ∧ Event.artifact_id ev = Artifact.id artifact)
    ∧ let p := string_value
                 (getitem (Artifact.custom_properties artifact)
                          "producer_component") in
      let n := string_value
                 (getitem (Artifact.custom_properties artifact) "name") in
      src_uri = Artifact.uri artifact
      ∧ dest_uri = PosixPath.join output_dir [p; n]
      ∧ (PosixPath.startswith_sep p = false →
         PosixPath.startswith_sep n = false →
         ∃ s1 s2, (s1 = "" ∨ s1 = "/") ∧ (s2 = "" ∨ s2 = "/")
                  ∧ dest_uri = (output_dir +:+ s1 +:+ p) +:+ s2 +:+ n).
Proof.
  unfold get_paths. intros Hin.
  apply list_elem_of_fmap in Hin as (a & Hpair & Ha).
  apply omap_elem_of_Some in Ha as (i & Hi & Hf).
  apply find_artifact_Some in Hf as [Hmem Hid].
  apply set_to_list_elem_of, output_artifact_id_iff in Hi.
  exists a. split; [done|]. split; [by rewrite Hid|].
  unfold path_pair in Hpair. injection Hpair as -> ->.
  split; [done|]. split; [done|].
  intros Hp Hn. simpl.
  destruct (join_step_relative output_dir _ Hp) as (s1 & Hs1 & ->).
  destruct (join_step_relative (output_dir +:+ s1 +:+ string_value
              (getitem (Artifact.custom_properties a) "producer_component"))
              _ Hn) as (s2 & Hs2 & ->).
  by exists s1, s2.
Qed.
End PathFacts.

(** ** The copy loop *)

Section CopyFacts.
Context {file_system : FileSystem}.

Lemma copy_paths_app (pre rest : list (string * string)) (fs : fs_state) :
  outcome (copy_paths pre fs) = Ok () →
  outcome (copy_paths (pre ++ rest) fs)
    = outcome (copy_paths rest (files (copy_paths pre fs)))
  ∧ files (copy_paths (pre ++ rest) fs)
    = files (copy_paths rest (files (copy_paths pre fs)))
  ∧ calls (copy_paths (pre ++ rest) fs)
    = calls (copy_paths pre fs)
      ++ calls (copy_paths rest (files (copy_paths pre fs))).
Proof.
  revert fs. induction pre as [|[s d] pre IH]; intros fs; simpl; [done|].
  destruct (gfile_exists fs s); simpl; [|done].
  intros Hok. destruct (IH _ Hok) as (-> & -> & ->). done.
Qed.

(** The loop succeeds exactly when every source exists when tested. *)
Lemma copy_paths_Ok_iff (paths : list (string * string)) (fs : fs_state) :
  outcome (copy_paths paths fs) = Ok () ↔ sources_exist paths fs = true.
Proof.
  revert fs. induction paths as [|[s d] paths IH]; intros fs; simpl; [done|].
  destruct (gfile_exists fs s); simpl; [apply IH | done].
Qed.

(** A loop that succeeds has made the two calls of every pair, in
    order, and nothing else. *)
Lemma copy_paths_Ok (paths : list (string * string)) (fs : fs_state) :
  sources_exist paths fs = true →
  copy_paths paths fs
    = MkRun (Ok ()) (foldl copy_one fs paths) (concat (copy_calls <$> paths)).
Proof.
  revert fs. induction paths as [|[s d] paths IH]; intros fs; simpl; [done|].
  destruct (gfile_exists fs s); simpl; [|done].
  intros Hrest. specialize (IH _ Hrest).
  unfold copy_one at 1 in IH. simpl in IH. by rewrite IH.
Qed.


(** Where copying the earlier pairs does not change whether a source
    exists, testing a source when the loop reaches it is testing it on
    the filesystem the run started from. *)
Lemma sources_exist_from (fs : fs_state)
    (rest copied : list (string * string)) :
  (∀ pre post s d, copied ++ rest = pre ++ (s, d) :: post →
     gfile_exists (foldl copy_one fs pre) s = gfile_exists fs s) →
  sources_exist rest (foldl copy_one fs copied)
    = forallb (λ path, gfile_exists fs path.1) rest.
Proof.
  revert copied.
  induction rest as [|[s d] rest IH]; intros copied Hsame; simpl; [done|].
  rewrite (Hsame copied rest s d eq_refl). f_equal.
  specialize (IH (copied ++ [(s, d)])). rewrite foldl_app in IH. apply IH.
  intros pre post s' d' Heq. apply (Hsame pre post s' d').
  by rewrite <- Heq, <- app_assoc.
Qed.

Lemma sources_exist_initially (paths : list (string * string)) (fs : fs_state) :
  (∀ pre post s d, paths = pre ++ (s, d) :: post →
     gfile_exists (foldl copy_one fs pre) s = gfile_exists fs s) →
  sources_exist paths fs = forallb (λ path, gfile_exists fs path.1) paths.
Proof. intros Hsame. exact (sources_exist_from fs paths [] Hsame). Qed.

End CopyFacts.

(** ** [record_pipeline] *)

Section RecordFacts.
Context {set_order : PySetOrder} {file_system : FileSystem}.
Variable CONTEXT_TYPE_PIPELINE_RUN : string.
Variable Metadata : ConnectionConfig → Store.t.

Lemma select_executions_run_id (st : Store.t)
    (pipeline_name : option string) (run_id : string) :
  select_executions CONTEXT_TYPE_PIPELINE_RUN st pipeline_name (Some run_id) =
    match filter (λ e, execution_run_id e = run_id)
                 (Store.get_executions st) with
    | [] => Raise (ValueError ("run_id " +:+ run_id +:+
                               " is not recorded in the MLMD metadata"))
    | selected => Ok selected
    end.
Proof.
  unfold select_executions. rewrite get_execution_dict_lookup.
  by destruct (filter _ _).
Qed.

Lemma get_latest_executions_no_context (st : Store.t) (pipeline_name : string) :
  (∀ c, c ∈ Store.get_contexts_by_type st CONTEXT_TYPE_PIPELINE_RUN →
        string_value (getitem (Context.properties c) "pipeline_name")
        ≠ pipeline_name) →
  get_latest_executions CONTEXT_TYPE_PIPELINE_RUN st pipeline_name
    = Raise (ValueError "max() arg is an empty sequence").
Proof.
  intros Hnone. unfold get_latest_executions.
  destruct (filter _ _) as [|c l] eqn:Hf; [done|].
  assert (c ∈ c :: l) as Hc by (apply elem_of_cons; by left).
  rewrite <- Hf in Hc. apply list_elem_of_filter in Hc as [Hn Hin].
  by destruct (Hnone c Hin).
Qed.

Lemma get_latest_executions_Raise (st : Store.t) (pipeline_name : string)
    (e : exn) :
  get_latest_executions CONTEXT_TYPE_PIPELINE_RUN st pipeline_name = Raise e →
  ∀ c, c ∈ Store.get_contexts_by_type st CONTEXT_TYPE_PIPELINE_RUN →
       string_value (getitem (Context.properties c) "pipeline_name")
       ≠ pipeline_name.
Proof.
  intros Hr c Hc Hn.
  destruct (get_latest_executions_of_latest_context CONTEXT_TYPE_PIPELINE_RUN
              st pipeline_name) as (m & _ & _ & _ & _ & _ & Hok);
    [by exists c|].
  congruence.
Qed.

Lemma filter_run_id_nil (st : Store.t) (r : string) :
  filter (λ e, execution_run_id e = r) (Store.get_executions st) = []
  ↔ ∀ e, e ∈ Store.get_executions st → execution_run_id e ≠ r.
Proof.
  split.
  - intros Hnil e He Hr.
    assert (e ∈ filter (λ e, execution_run_id e = r)
                  (Store.get_executions st)) as Hin
      by (apply list_elem_of_filter; by split).
    rewrite Hnil in Hin. by apply not_elem_of_nil in Hin.
  - intros Hnone. destruct (filter _ _) as [|e l] eqn:Hf; [done|].
    assert (e ∈ e :: l) as He by (apply elem_of_cons; by left).
    rewrite <- Hf in He. apply list_elem_of_filter in He as [Hr Hin].
    by destruct (Hnone e Hin).
Qed.

Lemma record_pipeline_connected (output_dir : string)
    (metadata_db_uri host : option string) (port : option Z)
    (pipeline_name run_id : option string) (fs : fs_state)
    (cfg : ConnectionConfig) :
  metadata_config_of metadata_db_uri host port = Ok cfg →
  record_pipeline CONTEXT_TYPE_PIPELINE_RUN Metadata output_dir
    metadata_db_uri host port pipeline_name run_id fs
    = match select_executions CONTEXT_TYPE_PIPELINE_RUN (Metadata cfg)
              pipeline_name run_id with
      | Raise e => MkRun (Raise e) fs []
      | Ok executions =>
          copy_paths (get_paths (Metadata cfg) executions output_dir) fs
      end.
Proof. intros Hcfg. unfold record_pipeline. by rewrite Hcfg. Qed.

(** The executions are selected without touching the filesystem, and
    the run then is the copy loop over their paths. *)
Lemma record_pipeline_selected (output_dir : string)
    (metadata_db_uri host : option string) (port : option Z)
    (pipeline_name run_id : option string) (fs : fs_state)
    (cfg : ConnectionConfig) (executions : list Execution.t) :
  metadata_config_of metadata_db_uri host port = Ok cfg →
  select_executions CONTEXT_TYPE_PIPELINE_RUN (Metadata cfg)
    pipeline_name run_id = Ok executions →
  record_pipeline CONTEXT_TYPE_PIPELINE_RUN Metadata output_dir
    metadata_db_uri host port pipeline_name run_id fs
    = copy_paths (get_paths (Metadata cfg) executions output_dir) fs.
Proof.
  intros Hcfg Hsel. rewrite (record_pipeline_connected _ _ _ _ _ _ _ _ Hcfg).
  by rewrite Hsel.
Qed.

(** C4. With a [run_id] given, [record_pipeline] selects exactly the
    executions whose [run_id] property equals it (raising [ValueError]
    when there is none), whatever [pipeline_name] is; the run is then
    the copy loop over the paths of those executions. The lookup of the
    most recent context serves only the case without [run_id]. *)
Theorem record_pipeline_selects_by_run_id (output_dir : string)
    (metadata_db_uri host : option string) (port : option Z)
    (pipeline_name : option string) (run_id : string) (fs : fs_state)
    (cfg : ConnectionConfig) :
  metadata_config_of metadata_db_uri host port = Ok cfg →
  select_executions CONTEXT_TYPE_PIPELINE_RUN (Metadata cfg)
      pipeline_name (Some run_id)
    = match filter (λ e, execution_run_id e = run_id)
                   (Store.get_executions (Metadata cfg)) with
      | [] => Raise (ValueError ("run_id " +:+ run_id +:+
                                 " is not recorded in the MLMD metadata"))
      | selected => Ok selected
      end
  ∧ record_pipeline CONTEXT_TYPE_PIPELINE_RUN Metadata output_dir
      metadata_db_uri host port pipeline_name (Some run_id) fs
    = match filter (λ e, execution_run_id e = run_id)
                   (Store.get_executions (Metadata cfg)) with
      | [] => MkRun (Raise (ValueError
                       ("run_id " +:+ run_id +:+
                        " is not recorded in the MLMD metadata"))) fs []
      | selected =>
          copy_paths (get_paths (Metadata cfg) selected output_dir) fs
      end
  ∧ (∀ p, select_executions CONTEXT_TYPE_PIPELINE_RUN (Metadata cfg)
            (Some p) None
          = get_latest_executions CONTEXT_TYPE_PIPELINE_RUN (Metadata cfg) p).
Proof.
  intros Hcfg. split; [apply select_executions_run_id|]. split; [|done].
  rewrite (record_pipeline_connected _ _ _ _ _ _ _ _ Hcfg).
  rewrite select_executions_run_id. by destruct (filter _ _).
Qed.


(** C10. When no context of the pipeline-run type carries the given
    pipeline name, [get_latest_executions] raises (the [ValueError] of
    [max] over an empty sequence) instead of returning an empty list,
    and [record_pipeline] without [run_id] fails with it, the
    filesystem untouched and no call made. *)
Theorem get_latest_executions_unknown_pipeline (output_dir : string)
    (metadata_db_uri host : option string) (port : option Z)
    (pipeline_name : string) (fs : fs_state) (cfg : ConnectionConfig) :
  metadata_config_of metadata_db_uri host port = Ok cfg →
  (∀ c, c ∈ Store.get_contexts_by_type (Metadata cfg)
              CONTEXT_TYPE_PIPELINE_RUN →
        string_value (getitem (Context.properties c) "pipeline_name")
        ≠ pipeline_name) →
  get_latest_executions CONTEXT_TYPE_PIPELINE_RUN (Metadata cfg) pipeline_name
    = Raise (ValueError "max() arg is an empty sequence")
  ∧ record_pipeline CONTEXT_TYPE_PIPELINE_RUN Metadata output_dir
      metadata_db_uri host port (Some pipeline_name) None fs
    = MkRun (Raise (ValueError "max() arg is an empty sequence")) fs [].
Proof.
  intros Hcfg Hnone.
  pose proof (get_latest_executions_no_context _ _ Hnone) as Hraise.
  split; [done|].
  rewrite (record_pipeline_connected _ _ _ _ _ _ _ _ Hcfg).
  simpl. by rewrite Hraise.
Qed.
End RecordFacts.

(** ** The theorems at work in the small world *)

Section Examples.
Import Example.

Example get_paths_example :
  paths [e1; e3]
  = [("/mlmd/Trainer/model/1", "out/Trainer/model");
     ("/mlmd/Gen/examples/1", "out/Gen/examples")].
Proof. reflexivity. Qed.

Example get_execution_dict_example :
  get_execution_dict store !! "run1" = Some [e1; e3]
  ∧ get_execution_dict store !! "run2" = Some [e2]
  ∧ get_execution_dict store !! "run3" = None.
Proof. by vm_compute. Qed.

Example get_latest_executions_example :
  get_latest_executions "run" store "taxi" = Ok [e2; e3].
Proof. reflexivity. Qed.

Example record_pipeline_example :
  record None (Some "run1") disk
  = ended (Ok ())
      [("out/Gen/examples", "copy of /mlmd/Gen/examples/1");
       ("out/Gen/examples", "directory");
       ("out/Trainer/model", "copy of /mlmd/Trainer/model/1");
       ("out/Trainer/model", "directory");
       ("/mlmd/Trainer/model/1", "directory");
       ("/mlmd/Gen/examples/1", "directory")]
      [Makedirs "out/Trainer/model";
       CopyDir "/mlmd/Trainer/model/1" "out/Trainer/model";
       Makedirs "out/Gen/examples";
       CopyDir "/mlmd/Gen/examples/1" "out/Gen/examples"].
Proof. reflexivity. Qed.

Example record_pipeline_partial_copy_example :
  record None (Some "run1") disk_without_examples
  = ended (Raise (FileNotFoundError "/mlmd/Gen/examples/1 does not exist"))
      [("out/Trainer/model", "copy of /mlmd/Trainer/model/1");
       ("out/Trainer/model", "directory");
       ("/mlmd/Trainer/model/1", "directory")]
      [Makedirs "out/Trainer/model";
       CopyDir "/mlmd/Trainer/model/1" "out/Trainer/model"].
Proof. reflexivity. Qed.

Lemma get_paths_one_pair_per_output_artifact_witness :
  Store.events_reference_artifacts store
  ∧ ∃ ids : list Z,
      NoDup ids
      ∧ (∀ i, i ∈ ids ↔
              ∃ ev e, ev ∈ Store.events store ∧ e ∈ [e1; e3]
                      ∧ Event.execution_id ev = Execution.id e
                      ∧ Event.type ev = OUTPUT
                      ∧ Event.artifact_id ev = i)
      ∧ Forall2
          (λ i pair, ∃ a, a ∈ Store.artifacts store ∧ Artifact.id a = i
                          ∧ pair = path_pair "out" a)
          ids (paths [e1; e3]).
Proof.
  assert (Store.events_reference_artifacts store) as Hwf.
  { unfold Store.events_reference_artifacts. repeat constructor; by eexists. }
  split; [exact Hwf|].
  exact (get_paths_one_pair_per_output_artifact
           (set_order := ascending_order) store [e1; e3] "out" Hwf).
Defined.

Lemma get_paths_pair_shape_witness :
  ("/mlmd/Gen/examples/1", "out/Gen/examples") ∈ paths [e1; e3]
  ∧ ∃ artifact,
      artifact ∈ Store.artifacts store
      ∧ Artifact.uri artifact = "/mlmd/Gen/examples/1"
      ∧ PosixPath.join "out"
          [string_value (getitem (Artifact.custom_properties artifact)
                                 "producer_component");
           string_value (getitem (Artifact.custom_properties artifact)
                                 "name")]
        = "out/Gen/examples".
Proof.
  assert (("/mlmd/Gen/examples/1", "out/Gen/examples") ∈ paths [e1; e3])
    as Hin.
  { rewrite get_paths_example. repeat constructor. }
  split; [exact Hin|].
  destruct (get_paths_pair_shape (set_order := ascending_order)
              store [e1; e3] "out" _ _ Hin)
    as (a & Ha & _ & Hsrc & Hdest & _).
  exists a. by rewrite <- Hsrc, <- Hdest.
Defined.

Lemma get_latest_executions_maximal_witness :
  (∃ c, c ∈ Store.get_contexts_by_type store "run"
        ∧ string_value (getitem (Context.properties c) "pipeline_name")
          = "taxi")
  ∧ ∃ latest,
      latest ∈ Store.get_contexts_by_type store "run"
      ∧ (∀ c, c ∈ Store.get_contexts_by_type store "run" →
              string_value (getitem (Context.properties c) "pipeline_name")
              = "taxi" →
              Context.last_update_time_since_epoch c
              ≤ Context.last_update_time_since_epoch latest)
      ∧ Ok [e2; e3]
        = Ok (Store.get_executions_by_context store (Context.id latest)).
Proof.
  assert (∃ c, c ∈ Store.get_contexts_by_type store "run"
               ∧ string_value (getitem (Context.properties c) "pipeline_name")
                 = "taxi") as Hex.
  { exists (ctx 100 "taxi" 5). split; [constructor | reflexivity]. }
  split; [exact Hex|].
  destruct (get_latest_executions_maximal "run" store "taxi" Hex)
    as (latest & Hin & _ & Hmax & Hres).
  exists latest. split; [exact Hin|]. split; [exact Hmax|].
  by rewrite <- Hres.
Defined.

Lemma record_pipeline_selects_by_run_id_witness :
  metadata_config_of None (Some "localhost") (Some 8080) = Ok grpc
  ∧ select_executions "run" (connect grpc) (Some "taxi") (Some "run1")
    = Ok [e1; e3]
  ∧ record (Some "taxi") (Some "run1") disk
    = copy_paths (file_system := path_list_fs) (paths [e1; e3]) disk.
Proof.
  assert (metadata_config_of None (Some "localhost") (Some 8080) = Ok grpc)
    as Hcfg by reflexivity.
  split; [exact Hcfg|].
  destruct (record_pipeline_selects_by_run_id
              (set_order := ascending_order) (file_system := path_list_fs)
              "run" connect "out" None (Some "localhost") (Some 8080)
              (Some "taxi") "run1" disk grpc Hcfg) as (Hsel & Hrun & _).
  split; [exact Hsel | exact Hrun].
Defined.


Lemma get_latest_executions_unknown_pipeline_witness :
  metadata_config_of None (Some "localhost") (Some 8080) = Ok grpc
  ∧ (∀ c, c ∈ Store.get_contexts_by_type (connect grpc) "run" →
          string_value (getitem (Context.properties c) "pipeline_name")
          ≠ "mnist")
  ∧ get_latest_executions "run" (connect grpc) "mnist"
    = Raise (ValueError "max() arg is an empty sequence")
  ∧ record (Some "mnist") None disk
    = ended (Raise (ValueError "max() arg is an empty sequence")) disk [].
Proof.
  assert (metadata_config_of None (Some "localhost") (Some 8080) = Ok grpc)
    as Hcfg by reflexivity.
  assert (∀ c, c ∈ Store.get_contexts_by_type (connect grpc) "run" →
               string_value (getitem (Context.properties c) "pipeline_name")
               ≠ "mnist") as Hnone.
  { intros c Hc Hn.
    apply elem_of_cons in Hc as [->|Hc]; [discriminate Hn|].
    apply elem_of_cons in Hc as [->|Hc]; [discriminate Hn|].
    apply elem_of_cons in Hc as [->|Hc]; [discriminate Hn|].
    apply elem_of_cons in Hc as [->|Hc]; [discriminate Hn|].
    by apply not_elem_of_nil in Hc. }
  split; [exact Hcfg|]. split; [exact Hnone|].
  exact (get_latest_executions_unknown_pipeline
           (set_order := ascending_order) (file_system := path_list_fs)
           "run" connect "out" None (Some "localhost") (Some 8080)
           "mnist" disk grpc Hcfg Hnone).
Defined.
End Examples.

(** * Further properties *)

(** ** More on the paths *)

Section MorePathFacts.
Context {set_order : PySetOrder}.

Lemma set_to_list_nil : set_to_list [] = [].
Proof.
  destruct (set_to_list []) as [|x l] eqn:Hl; [done|].
  assert (x ∈ set_to_list []) as Hx
    by (rewrite Hl; apply elem_of_cons; by left).
  apply (proj1 (set_to_list_elem_of [] x)) in Hx.
  by apply not_elem_of_nil in Hx.
Qed.

(** Executions to which no OUTPUT event of the store belongs yield no
    pair. *)
Lemma get_paths_without_output_events
    (st : Store.t) (executions : list Execution.t) (output_dir : string) :
  (∀ ev, ev ∈ Store.events st → Event.type ev = OUTPUT →
         Event.execution_id ev ∉ Execution.id <$> executions) →
  get_paths st executions output_dir = [].
Proof.
  intros Hnone. unfold get_paths.
  assert (filter (λ x, Event.type x = OUTPUT)
            (Store.get_events_by_execution_ids st
               (Execution.id <$> executions)) = []) as ->.
  { destruct (filter _ _) as [|ev l] eqn:Hf; [done|].
    assert (ev ∈ ev :: l) as Hev by (apply elem_of_cons; by left).
    rewrite <- Hf in Hev. apply list_elem_of_filter in Hev as [Hty Hev].
    unfold Store.get_events_by_execution_ids in Hev.
    apply list_elem_of_filter in Hev as [Hid Hev].
    by destruct (Hnone ev Hev Hty). }
  simpl. by rewrite set_to_list_nil.
Qed.

(** X1. In a store whose events reference existing artifacts,
    [get_paths] yields no pair exactly when no OUTPUT event of the store
    belongs to one of the given executions; so the empty list of
    executions yields none. *)
Theorem get_paths_nil_iff
    (st : Store.t) (executions : list Execution.t) (output_dir : string) :
  Store.events_reference_artifacts st →
  get_paths st executions output_dir = []
  ↔ ∀ ev, ev ∈ Store.events st → Event.type ev = OUTPUT →
          Event.execution_id ev ∉ Execution.id <$> executions.
Proof.
  intros Hwf. split; [|apply get_paths_without_output_events].
  intros Hnil ev Hev Hty Hid.
  unfold Store.events_reference_artifacts in Hwf.
  rewrite Forall_forall in Hwf. destruct (Hwf ev Hev) as [a Ha].
  assert (path_pair output_dir a ∈ get_paths st executions output_dir) as Hin.
  { unfold get_paths, Store.get_artifacts_by_id.
    apply list_elem_of_fmap. exists a. split; [done|].
    apply list_elem_of_omap. exists (Event.artifact_id ev). split; [|done].
    apply set_to_list_elem_of, list_elem_of_fmap. exists ev. split; [done|].
    apply list_elem_of_filter. split; [done|].
    unfold Store.get_events_by_execution_ids.
    apply list_elem_of_filter. by split. }
  rewrite Hnil in Hin. by apply not_elem_of_nil in Hin.
Qed.

(** X3. [get_paths] looks at the executions through their ids only: two
    lists of executions with the same ids, in whatever order and however
    often repeated, yield the same pairs in the same order. *)
Theorem get_paths_same_execution_ids
    (st : Store.t) (executions executions' : list Execution.t)
    (output_dir : string) :
  (∀ i, i ∈ Execution.id <$> executions
        ↔ i ∈ Execution.id <$> executions') →
  get_paths st executions output_dir = get_paths st executions' output_dir.
Proof.
  intros Hids. unfold get_paths, Store.get_events_by_execution_ids.
  by rewrite (list_filter_iff _
                (λ ev, Event.execution_id ev ∈ Execution.id <$> executions')
                (Store.events st)) by (intros ev; apply Hids).
Qed.

(** X4. Only the artifacts and the OUTPUT events of the store matter to
    [get_paths]: events of any other type (INPUT, DECLARED_OUTPUT,
    INTERNAL_OUTPUT, ...) and the other tables can differ without
    changing the pairs. *)
Theorem get_paths_ignores_other_event_types
    (st st' : Store.t) (executions : list Execution.t) (output_dir : string) :
  Store.artifacts st = Store.artifacts st' →
  filter (λ x, Event.type x = OUTPUT) (Store.events st)
    = filter (λ x, Event.type x = OUTPUT) (Store.events st') →
  get_paths st executions output_dir = get_paths st' executions output_dir.
Proof.
  intros Hart Hev.
  unfold get_paths, Store.get_events_by_execution_ids,
    Store.get_artifacts_by_id.
  assert (∀ s : Store.t,
            filter (λ x, Event.type x = OUTPUT)
              (filter (λ ev, Event.execution_id ev
                             ∈ Execution.id <$> executions) (Store.events s))
            = filter (λ ev, Event.execution_id ev
                            ∈ Execution.id <$> executions)
                (filter (λ x, Event.type x = OUTPUT) (Store.events s)))
    as Hswap.
  { intros s. rewrite !list_filter_filter. apply list_filter_iff.
    intros ev. tauto. }
  rewrite !Hswap, Hev.
  assert (Store.find_artifact st = Store.find_artifact st') as ->.
  { unfold Store.find_artifact. by rewrite Hart. }
  done.
Qed.

(** X7. The pairs do not depend on the iteration order of the Python
    set beyond their own order: under any two orders [get_paths] yields
    the same pairs, each as often, possibly arranged differently. *)
Theorem get_paths_order_independent (other_order : PySetOrder)
    (st : Store.t) (executions : list Execution.t) (output_dir : string) :
  get_paths (set_order := set_order) st executions output_dir
  ≡ₚ get_paths (set_order := other_order) st executions output_dir.
Proof.
  unfold get_paths, Store.get_artifacts_by_id.
  apply fmap_Permutation, omap_Permutation.
  apply NoDup_Permutation; [apply set_to_list_NoDup..|].
  intros i. by rewrite !set_to_list_elem_of.
Qed.
End MorePathFacts.

Section JoinFacts.

Lemma string_app_nil_r (s : string) : s +:+ "" = s.
Proof.
  induction s as [|c s IH]; [done|].
  change (String c s +:+ "") with (String c (s +:+ "")). by rewrite IH.
Qed.

Lemma endswith_sep_app_sep (s : string) :
  PosixPath.endswith_sep (s +:+ PosixPath.sep) = true.
Proof.
  induction s as [|c s IH]; [done|].
  change (String c s +:+ PosixPath.sep)
    with (String c (s +:+ PosixPath.sep)).
  simpl. destruct (s +:+ PosixPath.sep); [done|]. exact IH.
Qed.

(** X5. An artifact that has neither custom property is sent to
    [output_dir] itself: the destination is [output_dir], with one
    separator added unless it is empty or already ends with one. All
    such artifacts therefore share one destination. *)
Theorem path_pair_missing_properties (output_dir : string) (a : Artifact.t) :
  Artifact.custom_properties a !! "producer_component" = None →
  Artifact.custom_properties a !! "name" = None →
  path_pair output_dir a
  = (Artifact.uri a,
     if bool_decide (output_dir = "") || PosixPath.endswith_sep output_dir
     then output_dir
     else output_dir +:+ "/").
Proof.
  intros Hp Hn. unfold path_pair, getitem. rewrite Hp, Hn. simpl.
  f_equal. unfold PosixPath.join_step at 2. simpl.
  destruct (bool_decide (output_dir = "")
            || PosixPath.endswith_sep output_dir) eqn:Hc.
  - rewrite string_app_nil_r. unfold PosixPath.join_step. simpl.
    rewrite Hc. apply string_app_nil_r.
  - unfold PosixPath.join_step. simpl.
    change (output_dir +:+ PosixPath.sep +:+ "")
      with (output_dir +:+ PosixPath.sep).
    rewrite endswith_sep_app_sep, orb_true_r. apply string_app_nil_r.
Qed.

(** X6. When the 'producer_component' or the 'name' of an artifact
    starts with the separator, [output_dir] plays no part in its
    destination: whatever directory is given, the pair is the same. *)
Theorem path_pair_absolute_ignores_output_dir
    (output_dir output_dir' : string) (a : Artifact.t) :
  PosixPath.startswith_sep
    (string_value (getitem (Artifact.custom_properties a)
                           "producer_component")) = true
  ∨ PosixPath.startswith_sep
      (string_value (getitem (Artifact.custom_properties a) "name")) = true →
  path_pair output_dir a = path_pair output_dir' a.
Proof.
  intros Habs. unfold path_pair. f_equal. simpl.
  destruct (PosixPath.startswith_sep
              (string_value (getitem (Artifact.custom_properties a) "name")))
    eqn:Hn.
  - unfold PosixPath.join_step at 1 3. by rewrite Hn.
  - destruct Habs as [Hp|Hn']; [|done].
    unfold PosixPath.join_step at 2 4. by rewrite Hp.
Qed.
End JoinFacts.

(** ** More on the selection of executions *)

Section MoreSelectionFacts.
Variable CONTEXT_TYPE_PIPELINE_RUN : string.

(** X8. An execution whose 'run_id' property is missing, or holds
    something other than a string, is filed under the empty run
    identifier. *)
Theorem get_execution_dict_missing_run_id (st : Store.t) (e : Execution.t) :
  e ∈ Store.get_executions st →
  (∀ s, Execution.properties e !! "run_id" ≠ Some (StringValue s)) →
  ∃ l, get_execution_dict st !! "" = Some l ∧ e ∈ l.
Proof.
  intros He Hno.
  assert (execution_run_id e = "") as Hrun.
  { unfold execution_run_id, getitem.
    destruct (Execution.properties e !! "run_id") as [[| | |s]|] eqn:Hp;
      try done.
    by destruct (Hno s). }
  rewrite get_execution_dict_lookup.
  assert (e ∈ filter (λ e, execution_run_id e = "")
                (Store.get_executions st))
    as Hin by (apply list_elem_of_filter; by split).
  destruct (filter _ _) as [|x l]; [by apply not_elem_of_nil in Hin|].
  by eexists.
Qed.

Lemma foldl_max_step_le {A : Type} (key : A → Z) (later : list A) (best : A) :
  Forall (λ y, key y ≤ key best) later →
  foldl (max_step key) best later = best.
Proof.
  induction 1 as [|y later Hy _ IH]; simpl; [done|].
  unfold max_step at 2. destruct (Z.ltb_spec (key best) (key y)); [lia|done].
Qed.

Lemma foldl_max_step_lt {A : Type} (key : A → Z)
    (earlier later : list A) (x latest : A) :
  Forall (λ y, key y < key latest) (x :: earlier) →
  foldl (max_step key) x (earlier ++ latest :: later)
    = foldl (max_step key) latest later.
Proof.
  revert x. induction earlier as [|y earlier IH]; intros x Hlt; simpl.
  - apply Forall_cons in Hlt as [Hx _].
    unfold max_step at 2.
    destruct (Z.ltb_spec (key x) (key latest)); [done|lia].
  - apply Forall_cons in Hlt as [Hx Hlt]. apply IH.
    apply Forall_cons in Hlt as [Hy Hlt]. constructor; [|done].
    unfold max_step. by destruct (key x <? key y).
Qed.

Lemma py_max_first_largest {A : Type} (key : A → Z)
    (earlier later : list A) (latest : A) :
  Forall (λ y, key y < key latest) earlier →
  Forall (λ y, key y ≤ key latest) later →
  py_max key (earlier ++ latest :: later) = Ok latest.
Proof.
  intros Hlt Hle. destruct earlier as [|x earlier]; simpl; f_equal.
  - by apply foldl_max_step_le.
  - rewrite foldl_max_step_lt by done. by apply foldl_max_step_le.
Qed.

(** X9. Among the matching contexts the one chosen is the first of
    those updated last: if a matching context was updated strictly
    later than every matching context before it and no earlier than
    every one after it, [get_latest_executions] returns its executions,
    even when a later context shares its time. *)
Theorem get_latest_executions_first_on_ties
    (st : Store.t) (pipeline_name : string)
    (earlier later : list Context.t) (latest : Context.t) :
  filter (λ c, string_value (getitem (Context.properties c) "pipeline_name")
               = pipeline_name)
         (Store.get_contexts_by_type st CONTEXT_TYPE_PIPELINE_RUN)
    = earlier ++ latest :: later →
  Forall (λ c, Context.last_update_time_since_epoch c
               < Context.last_update_time_since_epoch latest) earlier →
  Forall (λ c, Context.last_update_time_since_epoch c
               ≤ Context.last_update_time_since_epoch latest) later →
  get_latest_executions CONTEXT_TYPE_PIPELINE_RUN st pipeline_name
    = Ok (Store.get_executions_by_context st (Context.id latest)).
Proof.
  intros Hsplit Hlt Hle. unfold get_latest_executions.
  rewrite Hsplit, (py_max_first_largest _ _ _ _ Hlt Hle). done.
Qed.
End MoreSelectionFacts.

(** ** More on [record_pipeline] *)

Section MoreRecordFacts.
Context {set_order : PySetOrder} {file_system : FileSystem}.
Variable CONTEXT_TYPE_PIPELINE_RUN : string.
Variable Metadata : ConnectionConfig → Store.t.

(** X2. A run that finds nothing to copy succeeds quietly: when the
    executions are selected and no OUTPUT event of the store belongs to
    them, [record_pipeline] ends without exception, makes no call and
    leaves the filesystem as it was. *)
Theorem record_pipeline_nothing_to_copy (output_dir : string)
    (metadata_db_uri host : option string) (port : option Z)
    (pipeline_name run_id : option string) (fs : fs_state)
    (cfg : ConnectionConfig) (executions : list Execution.t) :
  metadata_config_of metadata_db_uri host port = Ok cfg →
  select_executions CONTEXT_TYPE_PIPELINE_RUN (Metadata cfg)
    pipeline_name run_id = Ok executions →
  (∀ ev, ev ∈ Store.events (Metadata cfg) → Event.type ev = OUTPUT →
         Event.execution_id ev ∉ Execution.id <$> executions) →
  record_pipeline CONTEXT_TYPE_PIPELINE_RUN Metadata output_dir
    metadata_db_uri host port pipeline_name run_id fs
  = MkRun (Ok ()) fs [].
Proof.
  intros Hcfg Hsel Hnone.
  rewrite (record_pipeline_selected _ _ _ _ _ _ _ _ _ _ _ Hcfg Hsel).
  by rewrite (get_paths_without_output_events _ _ _ Hnone).
Qed.

(** X13. The arguments that do not take part in the choice of the
    connection do not take part in the run: with host and port both
    given [metadata_db_uri] is ignored, and with a [metadata_db_uri] but
    not both of host and port, the one of them that is given is
    ignored. *)
Theorem record_pipeline_config_precedence (output_dir : string)
    (metadata_db_uri host : option string) (port : option Z)
    (pipeline_name run_id : option string) (fs : fs_state) :
  (∀ h p,
     record_pipeline CONTEXT_TYPE_PIPELINE_RUN Metadata output_dir
       metadata_db_uri (Some h) (Some p) pipeline_name run_id fs
     = record_pipeline CONTEXT_TYPE_PIPELINE_RUN Metadata output_dir
         None (Some h) (Some p) pipeline_name run_id fs)
  ∧ (∀ uri, host = None ∨ port = None →
       record_pipeline CONTEXT_TYPE_PIPELINE_RUN Metadata output_dir
         (Some uri) host port pipeline_name run_id fs
       = record_pipeline CONTEXT_TYPE_PIPELINE_RUN Metadata output_dir
           (Some uri) None None pipeline_name run_id fs).
Proof.
  split; [done|].
  intros uri Hone. unfold record_pipeline.
  by destruct host, port, Hone.
Qed.

End MoreRecordFacts.

(** ** The further properties at work *)

Section MoreExamples.
Import Example.

Lemma get_paths_nil_iff_witness :
  Store.events_reference_artifacts store
  ∧ (paths [e2] = []
     ↔ ∀ ev, ev ∈ Store.events store → Event.type ev = OUTPUT →
             Event.execution_id ev ∉ Execution.id <$> [e2])
  ∧ paths [e2] = [].
Proof.
  assert (Store.events_reference_artifacts store) as Hwf.
  { unfold Store.events_reference_artifacts. repeat constructor; by eexists. }
  split; [exact Hwf|]. split; [|reflexivity].
  exact (get_paths_nil_iff (set_order := ascending_order) store [e2] "out" Hwf).
Defined.

Lemma record_pipeline_nothing_to_copy_witness :
  metadata_config_of None (Some "localhost") (Some 8080) = Ok grpc
  ∧ select_executions "run" (connect grpc) None (Some "run2") = Ok [e2]
  ∧ (∀ ev, ev ∈ Store.events (connect grpc) → Event.type ev = OUTPUT →
           Event.execution_id ev ∉ Execution.id <$> [e2])
  ∧ record None (Some "run2") disk = ended (Ok ()) disk [].
Proof.
  assert (metadata_config_of None (Some "localhost") (Some 8080) = Ok grpc)
    as Hcfg by reflexivity.
  assert (select_executions "run" (connect grpc) None (Some "run2")
          = Ok [e2]) as Hsel by reflexivity.
  assert (∀ ev, ev ∈ Store.events (connect grpc) →
                Event.type ev = OUTPUT →
                Event.execution_id ev ∉ Execution.id <$> [e2]) as Hnone.
  { intros ev Hev Hty Hin.
    apply list_elem_of_singleton in Hin.
    repeat (apply elem_of_cons in Hev as [->|Hev];
            [first [discriminate Hty | discriminate Hin]|]).
    by apply not_elem_of_nil in Hev. }
  split; [exact Hcfg|]. split; [exact Hsel|]. split; [exact Hnone|].
  exact (record_pipeline_nothing_to_copy
           (set_order := ascending_order) (file_system := path_list_fs)
           "run" connect "out" None (Some "localhost") (Some 8080)
           None (Some "run2") disk grpc [e2] Hcfg Hsel Hnone).
Defined.

Lemma get_paths_same_execution_ids_witness :
  (∀ i, i ∈ Execution.id <$> [e1; e3]
        ↔ i ∈ Execution.id <$> [e3; e1; e1])
  ∧ paths [e1; e3] = paths [e3; e1; e1].
Proof.
  assert (∀ i, i ∈ Execution.id <$> [e1; e3]
               ↔ i ∈ Execution.id <$> [e3; e1; e1]) as Hids.
  { intros i. change (i ∈ [1; 3] ↔ i ∈ [3; 1; 1]).
    rewrite !elem_of_cons, !elem_of_nil. tauto. }
  split; [exact Hids|].
  exact (get_paths_same_execution_ids
           (set_order := ascending_order) store [e1; e3] [e3; e1; e1] "out"
           Hids).
Defined.

Lemma get_paths_ignores_other_event_types_witness :
  Store.artifacts store = Store.artifacts store_outputs_only
  ∧ filter (λ x, Event.type x = OUTPUT) (Store.events store)
    = filter (λ x, Event.type x = OUTPUT) (Store.events store_outputs_only)
  ∧ paths [e1; e3]
    = get_paths (set_order := ascending_order) store_outputs_only
        [e1; e3] "out".
Proof.
  split; [reflexivity|]. split; [reflexivity|].
  exact (get_paths_ignores_other_event_types
           (set_order := ascending_order) store store_outputs_only
           [e1; e3] "out"
           eq_refl eq_refl).
Defined.

Lemma path_pair_missing_properties_witness :
  Artifact.custom_properties bare !! "producer_component" = None
  ∧ Artifact.custom_properties bare !! "name" = None
  ∧ path_pair "out" bare = ("/mlmd/bare/1", "out/").
Proof.
  split; [reflexivity|]. split; [reflexivity|].
  exact (path_pair_missing_properties "out" bare eq_refl eq_refl).
Defined.

Lemma path_pair_absolute_ignores_output_dir_witness :
  PosixPath.startswith_sep
    (string_value (getitem (Artifact.custom_properties rooted) "name")) = true
  ∧ path_pair "out" rooted = path_pair "elsewhere" rooted
  ∧ path_pair "out" rooted = ("/mlmd/Trainer/model/2", "/srv/model").
Proof.
  split; [reflexivity|]. split; [|reflexivity].
  exact (path_pair_absolute_ignores_output_dir "out" "elsewhere" rooted
           (or_intror eq_refl)).
Defined.

Lemma get_execution_dict_missing_run_id_witness :
  e4 ∈ Store.get_executions store_unlabelled
  ∧ (∀ s, Execution.properties e4 !! "run_id" ≠ Some (StringValue s))
  ∧ ∃ l, get_execution_dict store_unlabelled !! "" = Some l ∧ e4 ∈ l.
Proof.
  assert (e4 ∈ Store.get_executions store_unlabelled) as Hin
    by (apply elem_of_cons; right; apply elem_of_cons; by left).
  assert (∀ s, Execution.properties e4 !! "run_id" ≠ Some (StringValue s))
    as Hno by (intros s Hs; vm_compute in Hs; discriminate Hs).
  split; [exact Hin|]. split; [exact Hno|].
  exact (get_execution_dict_missing_run_id store_unlabelled e4 Hin Hno).
Defined.

Lemma get_latest_executions_first_on_ties_witness :
  filter (λ c, string_value (getitem (Context.properties c) "pipeline_name")
               = "taxi")
         (Store.get_contexts_by_type store "run")
    = [ctx 100 "taxi" 5] ++ ctx 101 "taxi" 9 :: [ctx 103 "taxi" 9]
  ∧ get_latest_executions "run" store "taxi"
    = Ok (Store.get_executions_by_context store 101).
Proof.
  split; [reflexivity|].
  apply (get_latest_executions_first_on_ties "run" store "taxi"
           [ctx 100 "taxi" 5] [ctx 103 "taxi" 9] (ctx 101 "taxi" 9)).
  - reflexivity.
  - repeat constructor.
  - repeat constructor. discriminate.
Defined.

End MoreExamples.

(** * The recorder when library calls raise *)

(** ** The copy loop *)

Section RaisingCopyFacts.
Context {file_system : Raising.FileSystem}.

(** A loop that gets through its paths has made the two calls of every
    pair, in order, and nothing else. *)
Lemma raising_copy_paths_copied (paths : list (string * string))
    (fs fs' : Raising.fs_state) :
  Raising.copied paths fs = Some fs' →
  Raising.copy_paths paths fs
    = Raising.MkRun (Ok ()) fs' (concat (copy_calls <$> paths)).
Proof.
  revert fs. induction paths as [|[s d] paths IH]; intros fs; simpl.
  - by intros [= <-].
  - destruct (Raising.gfile_exists fs s); [|done].
    destruct (Raising.os_makedirs fs d) as [[[]|e] fs1]; [|done].
    destruct (Raising.copy_dir fs1 s d) as [[[]|e] fs2]; [|done].
    intros Hrest. by rewrite (IH _ Hrest).
Qed.

Lemma raising_copy_paths_Ok (paths : list (string * string))
    (fs : Raising.fs_state) :
  Raising.outcome (Raising.copy_paths paths fs) = Ok () →
  Raising.copied paths fs
    = Some (Raising.files (Raising.copy_paths paths fs)).
Proof.
  revert fs. induction paths as [|[s d] paths IH]; intros fs; simpl; [done|].
  destruct (Raising.gfile_exists fs s); [|done].
  destruct (Raising.os_makedirs fs d) as [[[]|e] fs1]; [|done].
  destruct (Raising.copy_dir fs1 s d) as [[[]|e] fs2]; [|done].
  simpl. apply IH.
Qed.

(** Once the loop is through the first pairs, it goes on as it would
    from the filesystem they left. *)
Lemma raising_copy_paths_after (pre rest : list (string * string))
    (fs fs1 : Raising.fs_state) :
  Raising.copied pre fs = Some fs1 →
  Raising.outcome (Raising.copy_paths (pre ++ rest) fs)
    = Raising.outcome (Raising.copy_paths rest fs1)
  ∧ Raising.files (Raising.copy_paths (pre ++ rest) fs)
    = Raising.files (Raising.copy_paths rest fs1)
  ∧ Raising.calls (Raising.copy_paths (pre ++ rest) fs)
    = concat (copy_calls <$> pre)
      ++ Raising.calls (Raising.copy_paths rest fs1).
Proof.
  revert fs. induction pre as [|[s d] pre IH]; intros fs; simpl.
  - by intros [= <-].
  - destruct (Raising.gfile_exists fs s); [|done].
    destruct (Raising.os_makedirs fs d) as [[[]|e] fs2]; [|done].
    destruct (Raising.copy_dir fs2 s d) as [[[]|e] fs3]; [|done].
    intros Hpre. destruct (IH _ Hpre) as (-> & -> & ->). done.
Qed.

(** How the loop ends: through all pairs, or at the first pair whose
    source is missing, or whose [os.makedirs] or [copy_dir] raises. *)
Lemma raising_copy_paths_ends (paths : list (string * string))
    (fs : Raising.fs_state) :
  ∃ pre rest tail fs1,
    paths = pre ++ rest
    ∧ Raising.copied pre fs = Some fs1
    ∧ Raising.calls (Raising.copy_paths paths fs)
      = concat (copy_calls <$> pre) ++ tail
    ∧ match rest with
      | [] =>
          tail = []
          ∧ Raising.outcome (Raising.copy_paths paths fs) = Ok ()
      | (s, d) :: _ =>
          (Raising.gfile_exists fs1 s = false
           ∧ tail = []
           ∧ Raising.outcome (Raising.copy_paths paths fs)
             = Raise (FileNotFoundError (s +:+ " does not exist")))
          ∨ (Raising.gfile_exists fs1 s = true
             ∧ ∃ e, (Raising.os_makedirs fs1 d).1 = Raise e
                    ∧ tail = [Makedirs d]
                    ∧ Raising.outcome (Raising.copy_paths paths fs)
                      = Raise e)
          ∨ (Raising.gfile_exists fs1 s = true
             ∧ (Raising.os_makedirs fs1 d).1 = Ok ()
             ∧ ∃ e, (Raising.copy_dir (Raising.os_makedirs fs1 d).2 s d).1
                    = Raise e
                    ∧ tail = [Makedirs d; CopyDir s d]
                    ∧ Raising.outcome (Raising.copy_paths paths fs)
                      = Raise e)
      end.
Proof.
  revert fs. induction paths as [|[s d] paths IH]; intros fs.
  - by exists [], [], [], fs.
  - simpl. destruct (Raising.gfile_exists fs s) eqn:Hs.
    + destruct (Raising.os_makedirs fs d) as [[[]|e] fs2] eqn:Hmk.
      * destruct (Raising.copy_dir fs2 s d) as [[[]|e] fs3] eqn:Hcp.
        -- destruct (IH fs3) as (pre & rest & tail & fs1 & -> & Hpre & Hc & He).
           exists ((s, d) :: pre), rest, tail, fs1. simpl.
           rewrite Hs, Hmk, Hcp, Hc. done.
        -- exists [], ((s, d) :: paths), [Makedirs d; CopyDir s d], fs.
           simpl. repeat split; try done.
           right. right. rewrite Hmk. simpl. rewrite Hcp. simpl.
           repeat split; try done. by exists e.
      * exists [], ((s, d) :: paths), [Makedirs d], fs.
        simpl. repeat split; try done.
        right. left. rewrite Hmk. simpl. split; [done|]. by exists e.
    + exists [], ((s, d) :: paths), [], fs.
      simpl. repeat split; try done. by left.
Qed.

(** The guard of the loop raises [FileNotFoundError] only: a
    [ValueError] out of the loop is one of [os.makedirs] or
    [copy_dir]. *)
Lemma raising_copy_paths_ValueError (paths : list (string * string))
    (fs : Raising.fs_state) :
  is_ValueError (Raising.outcome (Raising.copy_paths paths fs))
  ↔ Raising.library_ValueError paths fs.
Proof.
  split.
  - intros [msg Hmsg].
    destruct (raising_copy_paths_ends paths fs)
      as (pre & rest & tail & fs1 & Hpaths & Hpre & _ & Hend).
    destruct rest as [|[s d] post].
    { destruct Hend as [_ Hok]. congruence. }
    destruct Hend as [(_ & _ & Hout)|[(Hs & e & Hmk & _ & Hout)
                                     |(Hs & Hmk & e & Hcp & _ & Hout)]].
    + congruence.
    + exists pre, s, d, post, fs1. repeat split; try done.
      left. exists msg. congruence.
    + exists pre, s, d, post, fs1. repeat split; try done.
      right. split; [done|]. exists msg. congruence.
  - intros (pre & s & d & post & fs1 & -> & Hpre & Hs & Hlib).
    destruct (raising_copy_paths_after pre ((s, d) :: post) fs fs1 Hpre)
      as (-> & _ & _).
    simpl. rewrite Hs.
    destruct (Raising.os_makedirs fs1 d) as [[[]|e] fs2]; simpl in Hlib.
    + destruct Hlib as [[msg Hmsg]|[_ [msg Hmsg]]]; [done|].
      destruct (Raising.copy_dir fs2 s d) as [[[]|e] fs3]; simpl in Hmsg;
        [done|].
      exists msg. simpl. congruence.
    + destruct Hlib as [[msg Hmsg]|[Hok _]]; [|done].
      exists msg. simpl. congruence.
Qed.

(** With calls that never raise the loop is the loop of the recorder
    above. *)
Lemma raising_copy_paths_never_raising (F : FileSystem)
    (paths : list (string * string)) (fs : fs_state) :
  Raising.outcome
    (Raising.copy_paths (file_system := never_raising F) paths fs)
    = outcome (copy_paths paths fs)
  ∧ Raising.files
      (Raising.copy_paths (file_system := never_raising F) paths fs)
    = files (copy_paths paths fs)
  ∧ Raising.calls
      (Raising.copy_paths (file_system := never_raising F) paths fs)
    = calls (copy_paths paths fs).
Proof.
  revert fs. induction paths as [|[s d] paths IH]; intros fs; simpl; [done|].
  destruct (gfile_exists fs s); simpl; [|done].
  destruct (IH (copy_dir (os_makedirs fs d) s d)) as (-> & -> & ->). done.
Qed.
End RaisingCopyFacts.

(** ** [record_pipeline] *)

Section RaisingRecordFacts.
Context {set_order : PySetOrder} {port_field : Raising.PortField}
        {file_system : Raising.FileSystem}.
Variable CONTEXT_TYPE_PIPELINE_RUN : string.
Variable Metadata : ConnectionConfig → Store.t.

Lemma raising_metadata_config_of_Raise (metadata_db_uri host : option string)
    (port : option Z) (e : exn) :
  Raising.metadata_config_of metadata_db_uri host port = Raise e →
  (no_connection_config metadata_db_uri host port
   ∨ Raising.port_rejected host port)
  ∧ ∃ msg, e = ValueError msg.
Proof.
  unfold Raising.metadata_config_of, no_connection_config,
    Raising.port_rejected.
  destruct host as [h|], port as [p|]; [destruct (Raising.port_in_range p)
    eqn:Hp|..]; destruct metadata_db_uri; intros Hc; simplify_eq;
    (split; [|by eexists]).
  1,2: right; by exists h, p.
  all: left; split; [|done]; by intros [? ?].
Qed.

Lemma raising_metadata_config_of_Ok (metadata_db_uri host : option string)
    (port : option Z) (cfg : ConnectionConfig) :
  Raising.metadata_config_of metadata_db_uri host port = Ok cfg →
  ¬ no_connection_config metadata_db_uri host port
  ∧ ¬ Raising.port_rejected host port.
Proof.
  unfold Raising.metadata_config_of, no_connection_config,
    Raising.port_rejected.
  intros Hc. split.
  - intros [Hn Hu]. subst metadata_db_uri.
    destruct host as [h|], port as [p|]; simplify_eq.
    apply Hn. by split.
  - intros (h & p & -> & -> & Hp). rewrite Hp in Hc. done.
Qed.

Lemma raising_record_pipeline_connected (output_dir : string)
    (metadata_db_uri host : option string) (port : option Z)
    (pipeline_name run_id : option string) (fs : Raising.fs_state)
    (cfg : ConnectionConfig) :
  Raising.metadata_config_of metadata_db_uri host port = Ok cfg →
  Raising.record_pipeline CONTEXT_TYPE_PIPELINE_RUN Metadata output_dir
    metadata_db_uri host port pipeline_name run_id fs
    = match select_executions CONTEXT_TYPE_PIPELINE_RUN (Metadata cfg)
              pipeline_name run_id with
      | Raise e => Raising.MkRun (Raise e) fs []
      | Ok executions =>
          Raising.copy_paths
            (get_paths (Metadata cfg) executions output_dir) fs
      end.
Proof. intros Hcfg. unfold Raising.record_pipeline. by rewrite Hcfg. Qed.

Lemma raising_record_pipeline_selected (output_dir : string)
    (metadata_db_uri host : option string) (port : option Z)
    (pipeline_name run_id : option string) (fs : Raising.fs_state)
    (cfg : ConnectionConfig) (executions : list Execution.t) :
  Raising.metadata_config_of metadata_db_uri host port = Ok cfg →
  select_executions CONTEXT_TYPE_PIPELINE_RUN (Metadata cfg)
    pipeline_name run_id = Ok executions →
  Raising.record_pipeline CONTEXT_TYPE_PIPELINE_RUN Metadata output_dir
    metadata_db_uri host port pipeline_name run_id fs
    = Raising.copy_paths (get_paths (Metadata cfg) executions output_dir) fs.
Proof.
  intros Hcfg Hsel.
  rewrite (raising_record_pipeline_connected _ _ _ _ _ _ _ _ Hcfg).
  by rewrite Hsel.
Qed.

(** The selection fails in three ways, each a [ValueError]. *)
Lemma select_executions_Raise_cases (st : Store.t)
    (pipeline_name run_id : option string) (e : exn) :
  select_executions CONTEXT_TYPE_PIPELINE_RUN st pipeline_name run_id
    = Raise e →
  (nothing_to_look_up pipeline_name run_id
   ∨ run_id_not_recorded st run_id
   ∨ pipeline_not_recorded CONTEXT_TYPE_PIPELINE_RUN st pipeline_name run_id)
  ∧ ∃ msg, e = ValueError msg.
Proof.
  destruct run_id as [r|].
  - rewrite select_executions_run_id.
    destruct (filter _ _) eqn:Hf; intros Hr; simplify_eq.
    split; [|by eexists]. right. left. exists r. split; [done|].
    by apply filter_run_id_nil.
  - destruct pipeline_name as [p|]; simpl; intros Hr.
    + split.
      * right. right. split; [done|]. exists p. split; [done|].
        by eapply get_latest_executions_Raise.
      * unfold get_latest_executions in Hr.
        destruct (filter _ _); simpl in Hr; simplify_eq. by eexists.
    + simplify_eq. split; [by left | by eexists].
Qed.

Lemma select_executions_Ok_cases (st : Store.t)
    (pipeline_name run_id : option string) (executions : list Execution.t) :
  select_executions CONTEXT_TYPE_PIPELINE_RUN st pipeline_name run_id
    = Ok executions →
  ¬ (nothing_to_look_up pipeline_name run_id
     ∨ run_id_not_recorded st run_id
     ∨ pipeline_not_recorded CONTEXT_TYPE_PIPELINE_RUN st
         pipeline_name run_id).
Proof.
  intros Hsel [[-> ->]|[(r & -> & Hr)|(-> & p & -> & Hp)]].
  - done.
  - rewrite select_executions_run_id in Hsel.
    apply filter_run_id_nil in Hr. by rewrite Hr in Hsel.
  - simpl in Hsel.
    by rewrite (get_latest_executions_no_context _ _ _ Hp) in Hsel.
Qed.

(** C6, as the code has it. Once the executions are selected: a pair of
    [get_paths] that the loop reaches (every pair before it was copied,
    no call raising) and whose source exists when tested has
    [os.makedirs] called for its destination, after the calls of the
    pairs before it, and, when that call returns, [copy_dir] called for
    it next. So on a run that raises no exception the loop got through
    every pair: the calls are the two of every pair of [get_paths], in
    order, and the filesystem is the one they left. *)
Theorem record_pipeline_copies_reached_pairs (output_dir : string)
    (metadata_db_uri host : option string) (port : option Z)
    (pipeline_name run_id : option string) (fs : Raising.fs_state)
    (cfg : ConnectionConfig) (executions : list Execution.t) :
  Raising.metadata_config_of metadata_db_uri host port = Ok cfg →
  select_executions CONTEXT_TYPE_PIPELINE_RUN (Metadata cfg)
    pipeline_name run_id = Ok executions →
  (∀ pre src_uri dest_uri post fs1,
      get_paths (Metadata cfg) executions output_dir
        = pre ++ (src_uri, dest_uri) :: post →
      Raising.copied pre fs = Some fs1 →
      Raising.gfile_exists fs1 src_uri = true →
      ∃ later,
        Raising.calls
          (Raising.record_pipeline CONTEXT_TYPE_PIPELINE_RUN Metadata
             output_dir metadata_db_uri host port pipeline_name run_id fs)
        = concat (copy_calls <$> pre) ++ Makedirs dest_uri :: later
        ∧ ((Raising.os_makedirs fs1 dest_uri).1 = Ok () →
           ∃ later', later = CopyDir src_uri dest_uri :: later'))
  ∧ (Raising.outcome
       (Raising.record_pipeline CONTEXT_TYPE_PIPELINE_RUN Metadata
          output_dir metadata_db_uri host port pipeline_name run_id fs)
     = Ok () →
     ∃ fs',
       Raising.copied (get_paths (Metadata cfg) executions output_dir) fs
         = Some fs'
       ∧ Raising.record_pipeline CONTEXT_TYPE_PIPELINE_RUN Metadata
           output_dir metadata_db_uri host port pipeline_name run_id fs
         = Raising.MkRun (Ok ()) fs'
             (concat (copy_calls <$>
                get_paths (Metadata cfg) executions output_dir))).
Proof.
  intros Hcfg Hsel.
  rewrite (raising_record_pipeline_selected _ _ _ _ _ _ _ _ _ Hcfg Hsel).
  split.
  - intros pre s d post fs1 Hpaths Hpre Hs. rewrite Hpaths.
    destruct (raising_copy_paths_after pre ((s, d) :: post) fs fs1 Hpre)
      as (_ & _ & ->).
    simpl. rewrite Hs.
    destruct (Raising.os_makedirs fs1 d) as [[[]|e] fs2]; simpl.
    + destruct (Raising.copy_dir fs2 s d) as [[[]|e] fs3]; simpl.
      * eexists. split; [done|]. intros _. by eexists.
      * eexists. split; [done|]. intros _. by eexists.
    + eexists. split; [done|]. done.
  - intros Hok. apply raising_copy_paths_Ok in Hok.
    eexists. split; [exact Hok|].
    by apply raising_copy_paths_copied.
Qed.

(** C8, as the code has it. With the store and [tf.io.gfile.exists]
    returning, [record_pipeline] ends in [ValueError] exactly when (1)
    host and port are not both given and there is no [metadata_db_uri],
    or (2) both are given and the config's port field rejects the port,
    or a connection config was chosen and (3) neither [run_id] nor
    [pipeline_name] is given, or (4) no execution of the store has the
    given [run_id], or (5) there is no [run_id] and no pipeline-run
    context carries the given [pipeline_name], or (6) the executions are
    selected and [os.makedirs] or [copy_dir] raises [ValueError] inside
    the copy loop. In the cases (1) to (5) no filesystem call was made.
    With host and port both given and the port accepted, the gRPC
    config is the one used, [metadata_db_uri] or not. *)
Theorem record_pipeline_raises_ValueError_iff (output_dir : string)
    (metadata_db_uri host : option string) (port : option Z)
    (pipeline_name run_id : option string) (fs : Raising.fs_state) :
  (is_ValueError
     (Raising.outcome
        (Raising.record_pipeline CONTEXT_TYPE_PIPELINE_RUN Metadata
           output_dir metadata_db_uri host port pipeline_name run_id fs))
   ↔ no_connection_config metadata_db_uri host port
     ∨ Raising.port_rejected host port
     ∨ ∃ cfg,
         Raising.metadata_config_of metadata_db_uri host port = Ok cfg
         ∧ (nothing_to_look_up pipeline_name run_id
            ∨ run_id_not_recorded (Metadata cfg) run_id
            ∨ pipeline_not_recorded CONTEXT_TYPE_PIPELINE_RUN
                (Metadata cfg) pipeline_name run_id
            ∨ ∃ executions,
                select_executions CONTEXT_TYPE_PIPELINE_RUN (Metadata cfg)
                  pipeline_name run_id = Ok executions
                ∧ Raising.library_ValueError
                    (get_paths (Metadata cfg) executions output_dir) fs))
  ∧ (no_connection_config metadata_db_uri host port
     ∨ Raising.port_rejected host port
     ∨ (∃ cfg,
          Raising.metadata_config_of metadata_db_uri host port = Ok cfg
          ∧ (nothing_to_look_up pipeline_name run_id
             ∨ run_id_not_recorded (Metadata cfg) run_id
             ∨ pipeline_not_recorded CONTEXT_TYPE_PIPELINE_RUN
                 (Metadata cfg) pipeline_name run_id)) →
     is_ValueError
       (Raising.outcome
          (Raising.record_pipeline CONTEXT_TYPE_PIPELINE_RUN Metadata
             output_dir metadata_db_uri host port pipeline_name run_id fs))
     ∧ Raising.calls
         (Raising.record_pipeline CONTEXT_TYPE_PIPELINE_RUN Metadata
            output_dir metadata_db_uri host port pipeline_name run_id fs)
       = []
     ∧ Raising.files
         (Raising.record_pipeline CONTEXT_TYPE_PIPELINE_RUN Metadata
            output_dir metadata_db_uri host port pipeline_name run_id fs)
       = fs)
  ∧ (∀ h p, Raising.port_in_range p = true →
       Raising.metadata_config_of metadata_db_uri (Some h) (Some p)
       = Ok (MetadataStoreClientConfig h p)).
Proof.
  split; [|split].
  - destruct (Raising.metadata_config_of metadata_db_uri host port)
      as [cfg|e] eqn:Hcfg.
    + destruct (raising_metadata_config_of_Ok _ _ _ _ Hcfg) as [Hno Hrej].
      rewrite (raising_record_pipeline_connected _ _ _ _ _ _ _ _ Hcfg).
      destruct (select_executions _ _ _ _) as [executions|e] eqn:Hsel.
      * rewrite raising_copy_paths_ValueError.
        pose proof (select_executions_Ok_cases _ _ _ _ Hsel) as Hnot.
        split.
        -- intros Hlib. right. right. exists cfg. split; [done|].
           right. right. right. by exists executions.
        -- intros [?|[?|(cfg' & Hc & Hcase)]]; [done..|].
           injection Hc as <-.
           destruct Hcase as [?|[?|[?|(ex & Hs & Hlib)]]];
             [exfalso; apply Hnot; tauto..|].
           rewrite Hsel in Hs. by injection Hs as <-.
      * destruct (select_executions_Raise_cases _ _ _ _ Hsel)
          as [Hcase [msg ->]].
        split; [|intros _; by exists msg].
        intros _. right. right. exists cfg. split; [done|]. tauto.
    + unfold Raising.record_pipeline. rewrite Hcfg.
      destruct (raising_metadata_config_of_Raise _ _ _ _ Hcfg)
        as [Hcase [msg ->]].
      split; [intros _; tauto | intros _; by exists msg].
  - intros Hcase.
    destruct (Raising.metadata_config_of metadata_db_uri host port)
      as [cfg|e] eqn:Hcfg.
    + destruct (raising_metadata_config_of_Ok _ _ _ _ Hcfg) as [Hno Hrej].
      destruct Hcase as [?|[?|(cfg' & Hc & Hcase)]]; [done..|].
      injection Hc as <-.
      rewrite (raising_record_pipeline_connected _ _ _ _ _ _ _ _ Hcfg).
      destruct (select_executions _ _ _ _) as [executions|e] eqn:Hsel.
      * by destruct (select_executions_Ok_cases _ _ _ _ Hsel).
      * destruct (select_executions_Raise_cases _ _ _ _ Hsel)
          as [_ [msg ->]].
        split; [by exists msg | done].
    + unfold Raising.record_pipeline. rewrite Hcfg.
      destruct (raising_metadata_config_of_Raise _ _ _ _ Hcfg)
        as [_ [msg ->]].
      split; [by exists msg | done].
  - intros h p Hp. unfold Raising.metadata_config_of. by rewrite Hp.
Qed.

(** X12. However a run ends, the filesystem calls it made are, in
    order, [makedirs] then [copy_dir] for each of the first so many
    pairs of [get_paths], followed at most by the calls for the next
    pair up to the one that raised: no pair is skipped and a later one
    copied, and [copy_dir] is never called without [makedirs] for the
    same destination just before it. *)
Theorem record_pipeline_calls_in_order (output_dir : string)
    (metadata_db_uri host : option string) (port : option Z)
    (pipeline_name run_id : option string) (fs : Raising.fs_state) :
  ∃ pre tail,
    Raising.calls
      (Raising.record_pipeline CONTEXT_TYPE_PIPELINE_RUN Metadata
         output_dir metadata_db_uri host port pipeline_name run_id fs)
      = concat (copy_calls <$> pre) ++ tail
    ∧ (pre = [] ∧ tail = []
       ∨ ∃ cfg executions rest,
           Raising.metadata_config_of metadata_db_uri host port = Ok cfg
           ∧ select_executions CONTEXT_TYPE_PIPELINE_RUN (Metadata cfg)
               pipeline_name run_id = Ok executions
           ∧ get_paths (Metadata cfg) executions output_dir = pre ++ rest
           ∧ (tail = []
              ∨ ∃ src_uri dest_uri post e,
                  rest = (src_uri, dest_uri) :: post
                  ∧ (tail = [Makedirs dest_uri]
                     ∨ tail = [Makedirs dest_uri;
                               CopyDir src_uri dest_uri])
                  ∧ Raising.outcome
                      (Raising.record_pipeline CONTEXT_TYPE_PIPELINE_RUN
                         Metadata output_dir metadata_db_uri host port
                         pipeline_name run_id fs)
                    = Raise e)).
Proof.
  destruct (Raising.metadata_config_of metadata_db_uri host port)
    as [cfg|e] eqn:Hcfg.
  - rewrite (raising_record_pipeline_connected _ _ _ _ _ _ _ _ Hcfg).
    destruct (select_executions _ _ _ _) as [executions|e] eqn:Hsel.
    + destruct (raising_copy_paths_ends
                  (get_paths (Metadata cfg) executions output_dir) fs)
        as (pre & rest & tail & fs1 & Hpaths & _ & Hcalls & Hend).
      exists pre, tail. split; [done|].
      right. exists cfg, executions, rest. repeat split; try done.
      destruct rest as [|[s d] post]; [left; by destruct Hend|].
      destruct Hend as [(_ & -> & _)|[(_ & e & _ & -> & Hout)
                                     |(_ & _ & e & _ & -> & Hout)]].
      * by left.
      * right. exists s, d, post, e. repeat split; try done. by left.
      * right. exists s, d, post, e. repeat split; try done. by right.
    + exists [], []. split; [done|]. by left.
  - exists [], []. unfold Raising.record_pipeline. rewrite Hcfg.
    split; [done|]. by left.
Qed.
End RaisingRecordFacts.

(** ** Set orders and calls that never raise *)

Section RaisingOrderFacts.
Context {port_field : Raising.PortField} {file_system : Raising.FileSystem}.
Variable CONTEXT_TYPE_PIPELINE_RUN : string.
Variable Metadata : ConnectionConfig → Store.t.

Lemma concat_Permutation {A : Type} (l k : list (list A)) :
  l ≡ₚ k → concat l ≡ₚ concat k.
Proof.
  induction 1 as [|x l k _ IH|x y l|l k m _ IH1 _ IH2]; simpl.
  - done.
  - by rewrite IH.
  - rewrite !app_assoc. apply Permutation_app_tail, Permutation_app_comm.
  - by rewrite IH1.
Qed.

Lemma get_paths_Permutation (order order' : PySetOrder)
    (st : Store.t) (executions : list Execution.t) (output_dir : string) :
  get_paths (set_order := order) st executions output_dir
  ≡ₚ get_paths (set_order := order') st executions output_dir.
Proof.
  unfold get_paths, Store.get_artifacts_by_id.
  apply fmap_Permutation, omap_Permutation.
  apply NoDup_Permutation; [apply set_to_list_NoDup..|].
  intros i. by rewrite !set_to_list_elem_of.
Qed.

(** X15. Two runs from the same arguments, store and filesystem that
    both end without exception have made the same filesystem calls, each
    as often, whatever the iteration order of the Python set was in
    either: the order can change the sequence of the copies, not which
    copies a successful run makes. *)
Theorem record_pipeline_success_order_independent
    (order order' : PySetOrder) (output_dir : string)
    (metadata_db_uri host : option string) (port : option Z)
    (pipeline_name run_id : option string) (fs : Raising.fs_state) :
  Raising.outcome
    (Raising.record_pipeline (set_order := order)
       CONTEXT_TYPE_PIPELINE_RUN Metadata output_dir
       metadata_db_uri host port pipeline_name run_id fs) = Ok () →
  Raising.outcome
    (Raising.record_pipeline (set_order := order')
       CONTEXT_TYPE_PIPELINE_RUN Metadata output_dir
       metadata_db_uri host port pipeline_name run_id fs) = Ok () →
  Raising.calls
    (Raising.record_pipeline (set_order := order)
       CONTEXT_TYPE_PIPELINE_RUN Metadata output_dir
       metadata_db_uri host port pipeline_name run_id fs)
  ≡ₚ Raising.calls
       (Raising.record_pipeline (set_order := order')
          CONTEXT_TYPE_PIPELINE_RUN Metadata output_dir
          metadata_db_uri host port pipeline_name run_id fs).
Proof.
  destruct (Raising.metadata_config_of metadata_db_uri host port)
    as [cfg|e] eqn:Hcfg;
    [|unfold Raising.record_pipeline; by rewrite Hcfg].
  rewrite !(raising_record_pipeline_connected _ _ _ _ _ _ _ _ _ _ Hcfg).
  destruct (select_executions _ _ _ _) as [executions|e]; [|done].
  intros Hok Hok'.
  apply raising_copy_paths_Ok, raising_copy_paths_copied in Hok, Hok'.
  rewrite Hok, Hok'. simpl.
  apply concat_Permutation, fmap_Permutation, get_paths_Permutation.
Qed.
End RaisingOrderFacts.

Section NeverRaisingFacts.
Context {set_order : PySetOrder} {file_system : FileSystem}.
Variable CONTEXT_TYPE_PIPELINE_RUN : string.
Variable Metadata : ConnectionConfig → Store.t.

(** With a port field that accepts every port and filesystem calls that
    never raise, the recorder of this part is the recorder above. *)
Lemma raising_record_pipeline_never_raising (output_dir : string)
    (metadata_db_uri host : option string) (port : option Z)
    (pipeline_name run_id : option string) (fs : fs_state) :
  Raising.outcome
    (Raising.record_pipeline
       (port_field := any_port) (file_system := never_raising file_system)
       CONTEXT_TYPE_PIPELINE_RUN Metadata output_dir
       metadata_db_uri host port pipeline_name run_id fs)
    = outcome (record_pipeline CONTEXT_TYPE_PIPELINE_RUN Metadata output_dir
                 metadata_db_uri host port pipeline_name run_id fs)
  ∧ Raising.files
      (Raising.record_pipeline
         (port_field := any_port) (file_system := never_raising file_system)
         CONTEXT_TYPE_PIPELINE_RUN Metadata output_dir
         metadata_db_uri host port pipeline_name run_id fs)
    = files (record_pipeline CONTEXT_TYPE_PIPELINE_RUN Metadata output_dir
               metadata_db_uri host port pipeline_name run_id fs)
  ∧ Raising.calls
      (Raising.record_pipeline
         (port_field := any_port) (file_system := never_raising file_system)
         CONTEXT_TYPE_PIPELINE_RUN Metadata output_dir
         metadata_db_uri host port pipeline_name run_id fs)
    = calls (record_pipeline CONTEXT_TYPE_PIPELINE_RUN Metadata output_dir
               metadata_db_uri host port pipeline_name run_id fs).
Proof.
  unfold Raising.record_pipeline, record_pipeline.
  assert (Raising.metadata_config_of (port_field := any_port)
            metadata_db_uri host port
          = metadata_config_of metadata_db_uri host port) as ->.
  { by destruct host, port, metadata_db_uri. }
  destruct (metadata_config_of metadata_db_uri host port) as [cfg|e];
    [|done].
  simpl. destruct (select_executions _ _ _ _) as [executions|e]; [|done].
  apply raising_copy_paths_never_raising.
Qed.
End NeverRaisingFacts.

(** ** The recorder with raising calls at work *)

Section RaisingExamples.
Import Example.

Example record_raising_example :
  record_raising None (Some "run1") disk
  = Raising.MkRun (file_system := refusing_fs) (Ok ())
      [("out/Gen/examples", "copy of /mlmd/Gen/examples/1");
       ("out/Gen/examples", "directory");
       ("out/Trainer/model", "copy of /mlmd/Trainer/model/1");
       ("out/Trainer/model", "directory");
       ("/mlmd/Trainer/model/1", "directory");
       ("/mlmd/Gen/examples/1", "directory")]
      [Makedirs "out/Trainer/model";
       CopyDir "/mlmd/Trainer/model/1" "out/Trainer/model";
       Makedirs "out/Gen/examples";
       CopyDir "/mlmd/Gen/examples/1" "out/Gen/examples"].
Proof. reflexivity. Qed.

(** [os.makedirs] refuses a destination that is a regular file: the run
    ends there, after that one call. *)
Example record_raising_makedirs_refused :
  record_raising None (Some "run1") disk_with_file_at_model
  = Raising.MkRun (file_system := refusing_fs)
      (Raise (OtherError "FileExistsError"
                "[Errno 17] File exists: 'out/Trainer/model'"))
      disk_with_file_at_model
      [Makedirs "out/Trainer/model"].
Proof. reflexivity. Qed.

(** C6 as stated fails. The run "run1" of the store yields the pair of
    the model and then the pair of the examples. On a disk that holds
    the examples directory and not the model directory, the source of
    the second pair exists, yet neither call is made for it: the source
    of the first pair is missing and the loop stops there. *)
Lemma record_pipeline_stops_at_first_missing_source :
  ¬ (∀ src_uri dest_uri,
       (src_uri, dest_uri)
         ∈ get_paths (set_order := ascending_order) store [e1; e3] "out" →
       Raising.gfile_exists (FileSystem := refusing_fs)
         [("/mlmd/Gen/examples/1", "directory")] src_uri = true →
       Makedirs dest_uri
         ∈ Raising.calls
             (Raising.record_pipeline
                (set_order := ascending_order) (port_field := int64_port)
                (file_system := refusing_fs)
                "run" connect "out" None (Some "localhost") (Some 8080)
                None (Some "run1")
                [("/mlmd/Gen/examples/1", "directory")])
       ∧ CopyDir src_uri dest_uri
           ∈ Raising.calls
               (Raising.record_pipeline
                  (set_order := ascending_order) (port_field := int64_port)
                  (file_system := refusing_fs)
                  "run" connect "out" None (Some "localhost") (Some 8080)
                  None (Some "run1")
                  [("/mlmd/Gen/examples/1", "directory")])).
Proof.
  intros Hall.
  destruct (Hall "/mlmd/Gen/examples/1" "out/Gen/examples") as [Hmk _].
  - change (get_paths store [e1; e3] "out") with (paths [e1; e3]).
    rewrite get_paths_example. repeat constructor.
  - reflexivity.
  - vm_compute in Hmk. by apply not_elem_of_nil in Hmk.
Qed.

Lemma record_pipeline_copies_reached_pairs_witness :
  Raising.metadata_config_of (port_field := int64_port)
    None (Some "localhost") (Some 8080) = Ok grpc
  ∧ select_executions "run" (connect grpc) None (Some "run1") = Ok [e1; e3]
  ∧ Raising.outcome (record_raising None (Some "run1") disk) = Ok ()
  ∧ ∃ fs',
      Raising.copied (file_system := refusing_fs) (paths [e1; e3]) disk
        = Some fs'
      ∧ record_raising None (Some "run1") disk
        = Raising.MkRun (file_system := refusing_fs) (Ok ()) fs'
            (concat (copy_calls <$> paths [e1; e3])).
Proof.
  assert (Raising.metadata_config_of (port_field := int64_port)
            None (Some "localhost") (Some 8080) = Ok grpc)
    as Hcfg by reflexivity.
  assert (select_executions "run" (connect grpc) None (Some "run1")
          = Ok [e1; e3]) as Hsel by reflexivity.
  assert (Raising.outcome (record_raising None (Some "run1") disk) = Ok ())
    as Hok by reflexivity.
  split; [exact Hcfg|]. split; [exact Hsel|]. split; [exact Hok|].
  exact (proj2 (record_pipeline_copies_reached_pairs
                  (set_order := ascending_order) (port_field := int64_port)
                  (file_system := refusing_fs)
                  "run" connect "out" None (Some "localhost") (Some 8080)
                  None (Some "run1") disk grpc [e1; e3] Hcfg Hsel) Hok).
Defined.

(** C8 as stated fails. With host and port given, no [run_id] and a
    pipeline name that no context of the store carries, [record_pipeline]
    ends in [ValueError] although none of the three listed cases
    applies. *)
Lemma record_pipeline_ValueError_unlisted_case :
  ¬ (is_ValueError
       (Raising.outcome
          (Raising.record_pipeline
             (set_order := ascending_order) (port_field := int64_port)
             (file_system := refusing_fs)
             "run" connect "out" None (Some "localhost") (Some 8080)
             (Some "mnist") None
             [("/mlmd/Trainer/model/1", "directory");
              ("/mlmd/Gen/examples/1", "directory")]))
     ↔ no_connection_config None (Some "localhost") (Some 8080)
       ∨ ∃ cfg, Raising.metadata_config_of (port_field := int64_port)
                  None (Some "localhost") (Some 8080) = Ok cfg
                ∧ (nothing_to_look_up (Some "mnist") None
                   ∨ run_id_not_recorded (connect cfg) None)).
Proof.
  intros [Hcases _].
  destruct Hcases as [[Hno _]|(cfg & _ & [[_ Hp]|(r & Hr & _)])].
  - by exists "max() arg is an empty sequence".
  - apply Hno. done.
  - done.
  - done.
Qed.

(** A port beyond the field's range: the setter's [ValueError] ends the
    run, and the [metadata_db_uri] that is also given is not fallen back
    on. *)
Lemma record_pipeline_raises_ValueError_iff_witness :
  Raising.port_rejected (port_field := int64_port)
    (Some "localhost") (Some (2 ^ 63))
  ∧ is_ValueError
      (Raising.outcome
         (Raising.record_pipeline
            (set_order := ascending_order) (port_field := int64_port)
            (file_system := refusing_fs)
            "run" connect "out" (Some "/tmp/metadata.db")
            (Some "localhost") (Some (2 ^ 63)) None (Some "run1") disk))
  ∧ Raising.calls
      (Raising.record_pipeline
         (set_order := ascending_order) (port_field := int64_port)
         (file_system := refusing_fs)
         "run" connect "out" (Some "/tmp/metadata.db")
         (Some "localhost") (Some (2 ^ 63)) None (Some "run1") disk)
    = []
  ∧ Raising.files
      (Raising.record_pipeline
         (set_order := ascending_order) (port_field := int64_port)
         (file_system := refusing_fs)
         "run" connect "out" (Some "/tmp/metadata.db")
         (Some "localhost") (Some (2 ^ 63)) None (Some "run1") disk)
    = disk.
Proof.
  assert (Raising.port_rejected (port_field := int64_port)
            (Some "localhost") (Some (2 ^ 63))) as Hrej.
  { exists "localhost", (2 ^ 63). by repeat split. }
  split; [exact Hrej|].
  exact (proj1 (proj2 (record_pipeline_raises_ValueError_iff
                         (set_order := ascending_order)
                         (port_field := int64_port)
                         (file_system := refusing_fs)
                         "run" connect "out" (Some "/tmp/metadata.db")
                         (Some "localhost") (Some (2 ^ 63))
                         None (Some "run1") disk))
           (or_intror (or_introl Hrej))).
Defined.

Lemma record_pipeline_success_order_independent_witness :
  Raising.outcome (record_raising None (Some "run1") disk) = Ok ()
  ∧ Raising.outcome
      (Raising.record_pipeline
         (set_order := descending_order) (port_field := int64_port)
         (file_system := refusing_fs)
         "run" connect "out" None (Some "localhost") (Some 8080)
         None (Some "run1") disk) = Ok ()
  ∧ Raising.calls (record_raising None (Some "run1") disk)
    ≡ₚ Raising.calls
         (Raising.record_pipeline
            (set_order := descending_order) (port_field := int64_port)
            (file_system := refusing_fs)
            "run" connect "out" None (Some "localhost") (Some 8080)
            None (Some "run1") disk).
Proof.
  assert (Raising.outcome (record_raising None (Some "run1") disk) = Ok ())
    as Hok by reflexivity.
  assert (Raising.outcome
            (Raising.record_pipeline
               (set_order := descending_order) (port_field := int64_port)
               (file_system := refusing_fs)
               "run" connect "out" None (Some "localhost") (Some 8080)
               None (Some "run1") disk) = Ok ()) as Hok' by reflexivity.
  split; [exact Hok|]. split; [exact Hok'|].
  exact (record_pipeline_success_order_independent
           (port_field := int64_port) (file_system := refusing_fs)
           "run" connect ascending_order descending_order
           "out" None (Some "localhost") (Some 8080) None (Some "run1") disk
           Hok Hok').
Defined.
End RaisingExamples.
